(** * django_vite: the manifest-driven asset resolver

    A shallow embedding of [django_vite/templatetags/django_vite.py]
    (class [DjangoViteAssetLoader] and its template tags) and the
    properties of its dependency walker, tag generator and resolver. *)

From Stdlib Require Import String Ascii List Bool Arith Lia NArith.
From Stdlib Require Import DecimalString Relations.
Import ListNotations.
Open Scope string_scope.
Open Scope list_scope.

(** ** Python strings *)

Module Str.

Definition empty : string := EmptyString.
Definition chr (n : nat) : string := String (ascii_of_nat n) EmptyString.
(** the double quote and the line feed, which the tag templates use *)
Definition dquote : string := chr 34.
Definition lf : string := chr 10.

Definition is_empty (s : string) : bool :=
  match s with EmptyString => true | String _ _ => false end.

(** [s[n:]] *)
Fixpoint drop (n : nat) (s : string) : string :=
  match n, s with
  | S n', String _ r => drop n' r
  | _, _ => s
  end.

(** [s.startswith(p)] *)
Fixpoint startswith (p s : string) : bool :=
  match p, s with
  | EmptyString, _ => true
  | String a p', String b s' => Ascii.eqb a b && startswith p' s'
  | String _ _, EmptyString => false
  end.

(** [p in s]: [p] occurs in [s] as a substring *)
Fixpoint contains (p s : string) : bool :=
  startswith p s ||
  match s with
  | EmptyString => false
  | String _ s' => contains p s'
  end.

(** [s.endswith(p)] *)
Definition endswith (p s : string) : bool :=
  (String.length p <=? String.length s)%nat &&
  String.eqb (drop (String.length s - String.length p) s) p.

(** [c in s] for a one-character [c] *)
Fixpoint has_char (c : ascii) (s : string) : bool :=
  match s with
  | EmptyString => false
  | String a r => Ascii.eqb a c || has_char c r
  end.

(** [s.split(c, 1)] when [c] occurs in [s]: the text before the first
    [c] and the text after it. *)
Fixpoint cut (c : ascii) (s : string) : option (string * string) :=
  match s with
  | EmptyString => None
  | String a r =>
      if Ascii.eqb a c then Some (EmptyString, r)
      else match cut c r with
           | Some (u, v) => Some (String a u, v)
           | None => None
           end
  end.

(** [s.split(c)] *)
Fixpoint split (c : ascii) (s : string) : list string :=
  match s with
  | EmptyString => [EmptyString]
  | String a r =>
      if Ascii.eqb a c then EmptyString :: split c r
      else match split c r with
           | h :: t => String a h :: t
           | [] => [String a EmptyString]
           end
  end.

(** [sep.join(l)] *)
Definition join (sep : string) (l : list string) : string :=
  String.concat sep l.

Definition lower_char (c : ascii) : ascii :=
  let n := nat_of_ascii c in
  if ((65 <=? n) && (n <=? 90))%nat then ascii_of_nat (n + 32) else c.

Fixpoint lower (s : string) : string :=
  match s with
  | EmptyString => EmptyString
  | String c r => String (lower_char c) (lower r)
  end.

Fixpoint forallb (f : ascii -> bool) (s : string) : bool :=
  match s with
  | EmptyString => true
  | String c r => f c && forallb f r
  end.

Fixpoint filter (f : ascii -> bool) (s : string) : string :=
  match s with
  | EmptyString => EmptyString
  | String c r => if f c then String c (filter f r) else filter f r
  end.

(** [s.lstrip(chars)] for the characters satisfying [f] *)
Fixpoint lstrip (f : ascii -> bool) (s : string) : string :=
  match s with
  | EmptyString => EmptyString
  | String c r => if f c then lstrip f r else s
  end.

Fixpoint rev_append (s acc : string) : string :=
  match s with
  | EmptyString => acc
  | String c r => rev_append r (String c acc)
  end.

Definition rev (s : string) : string := rev_append s EmptyString.

Definition rstrip (f : ascii -> bool) (s : string) : string :=
  rev (lstrip f (rev s)).

(** [str(n)] for a non-negative integer *)
Definition of_N (n : N) : string :=
  NilEmpty.string_of_uint (N.to_uint n).

End Str.

(** ** [urllib.parse.urljoin]

    The resolver builds every URL with the standard library's [urljoin].
    The operations below take the joining function as a parameter; this
    module is CPython 3.11's [urljoin] on [str] arguments, used where a
    URL has to be computed.  Left out: the [ValueError] that [urlsplit]
    raises on an unbalanced or malformed bracketed host and on a
    non-ASCII host that normalises to a delimiter. *)

Module urllib_parse.

Local Open Scope string_scope.

Definition uses_relative : list string :=
  [Str.empty; "ftp"; "http"; "gopher"; "nntp"; "imap";
   "wais"; "file"; "https"; "shttp"; "mms";
   "prospero"; "rtsp"; "rtspu"; "sftp";
   "svn"; "svn+ssh"; "ws"; "wss"].

Definition uses_netloc : list string :=
  [Str.empty; "ftp"; "http"; "gopher"; "nntp"; "telnet";
   "imap"; "wais"; "file"; "mms"; "https"; "shttp";
   "snews"; "prospero"; "rtsp"; "rtspu"; "rsync";
   "svn"; "svn+ssh"; "sftp"; "nfs"; "git"; "git+ssh";
   "ws"; "wss"].

Definition uses_params : list string :=
  [Str.empty; "ftp"; "hdl"; "prospero"; "http"; "imap";
   "https"; "shttp"; "rtsp"; "rtspu"; "sip"; "sips";
   "mms"; "sftp"; "tel"].

Definition mem (s : string) (l : list string) : bool :=
  existsb (String.eqb s) l.

Definition is_alpha (c : ascii) : bool :=
  let n := nat_of_ascii c in
  (((65 <=? n) && (n <=? 90)) || ((97 <=? n) && (n <=? 122)))%nat.

Definition is_digit (c : ascii) : bool :=
  let n := nat_of_ascii c in ((48 <=? n) && (n <=? 57))%nat.

Definition scheme_char (c : ascii) : bool :=
  is_alpha c || is_digit c ||
  Ascii.eqb c "+" || Ascii.eqb c "-" || Ascii.eqb c ".".

(** [_WHATWG_C0_CONTROL_OR_SPACE] and [_UNSAFE_URL_BYTES_TO_REMOVE] *)
Definition c0_control_or_space (c : ascii) : bool :=
  (nat_of_ascii c <=? 32)%nat.

Definition unsafe_byte (c : ascii) : bool :=
  let n := nat_of_ascii c in ((n =? 9) || (n =? 13) || (n =? 10))%nat.

Definition remove_unsafe (s : string) : string :=
  Str.filter (fun c => negb (unsafe_byte c)) s.

(** [_splitnetloc(url, 2)] on a [url] that starts with two slashes *)
Fixpoint until_delim (s : string) : string * string :=
  match s with
  | EmptyString => (EmptyString, EmptyString)
  | String c r =>
      if Ascii.eqb c "/" || Ascii.eqb c "?" || Ascii.eqb c "#"
      then (EmptyString, s)
      else let (n, rest) := until_delim r in (String c n, rest)
  end.

Definition _splitnetloc2 (url : string) : string * string :=
  until_delim (Str.drop 2 url).

Record SplitResult := {
  s_scheme : string; s_netloc : string; s_path : string;
  s_query : string; s_fragment : string }.

Definition urlsplit (url scheme : string) : SplitResult :=
  let url := Str.lstrip c0_control_or_space url in
  let scheme :=
    Str.rstrip c0_control_or_space (Str.lstrip c0_control_or_space scheme) in
  let url := remove_unsafe url in
  let scheme := remove_unsafe scheme in
  let '(scheme, url) :=
    match Str.cut ":" url, url with
    | Some (String c0 _ as head, rest), _ =>
        if is_alpha c0 && Str.forallb scheme_char head
        then (Str.lower head, rest) else (scheme, url)
    | _, _ => (scheme, url)
    end in
  let '(netloc, url) :=
    if Str.startswith "//" url then _splitnetloc2 url
    else (EmptyString, url) in
  let '(url, fragment) :=
    match Str.cut "#" url with
    | Some (u, f) => (u, f)
    | None => (url, EmptyString)
    end in
  let '(url, query) :=
    match Str.cut "?" url with
    | Some (u, q) => (u, q)
    | None => (url, EmptyString)
    end in
  {| s_scheme := scheme; s_netloc := netloc; s_path := url;
     s_query := query; s_fragment := fragment |}.

(** [_splitparams]: the parameters of the last path segment *)
Fixpoint last_segment (s : string) : string * string :=
  match s with
  | EmptyString => (EmptyString, EmptyString)
  | String c r =>
      let (h, t) := last_segment r in
      if Str.has_char "/" r then (String c h, t)
      else if Ascii.eqb c "/" then (String c EmptyString, r)
      else (EmptyString, s)
  end.

Definition _splitparams (url : string) : string * string :=
  let (head, seg) := last_segment url in
  match Str.cut ";" seg with
  | Some (u, p) => (head ++ u, p)
  | None => (url, EmptyString)
  end.

Record ParseResult := {
  scheme : string; netloc : string; path : string;
  params : string; query : string; fragment : string }.

Definition urlparse (url default_scheme : string) : ParseResult :=
  let r := urlsplit url default_scheme in
  let (p, ps) :=
    if mem (s_scheme r) uses_params && Str.has_char ";" (s_path r)
    then _splitparams (s_path r) else (s_path r, EmptyString) in
  {| scheme := s_scheme r; netloc := s_netloc r; path := p;
     params := ps; query := s_query r; fragment := s_fragment r |}.

Definition urlunsplit (scheme netloc url query fragment : string) : string :=
  let url :=
    if negb (Str.is_empty netloc) ||
       (negb (Str.is_empty scheme) && mem scheme uses_netloc &&
        negb (Str.startswith "//" url))
    then
      let url :=
        if negb (Str.is_empty url) && negb (Str.startswith "/" url)
        then "/" ++ url else url in
      "//" ++ netloc ++ url
    else url in
  let url := if Str.is_empty scheme then url else scheme ++ ":" ++ url in
  let url := if Str.is_empty query then url else url ++ "?" ++ query in
  if Str.is_empty fragment then url else url ++ "#" ++ fragment.

Definition urlunparse (r : ParseResult) : string :=
  let url :=
    if Str.is_empty (params r) then path r
    else path r ++ ";" ++ params r in
  urlunsplit (scheme r) (netloc r) url (query r) (fragment r).

(** [segments[1:-1] = filter(None, segments[1:-1])] *)
Fixpoint filter_inner (l : list string) : list string :=
  match l with
  | [] => []
  | [x] => [x]
  | x :: r =>
      if Str.is_empty x then filter_inner r else x :: filter_inner r
  end.

Definition filter_middle (l : list string) : list string :=
  match l with
  | [] => []
  | x :: r => x :: filter_inner r
  end.

(** the loop over [segments] that resolves the dot segments *)
Definition resolve_dots (segments : list string) : list string :=
  fold_left
    (fun resolved seg =>
       if String.eqb seg ".." then removelast resolved
       else if String.eqb seg "." then resolved
       else (resolved ++ [seg])%list)
    segments [].

Definition urljoin (base url : string) : string :=
  if Str.is_empty base then url
  else if Str.is_empty url then base
  else
    let b := urlparse base EmptyString in
    let u := urlparse url (scheme b) in
    if negb (String.eqb (scheme u) (scheme b)) ||
       negb (mem (scheme u) uses_relative)
    then url
    else if mem (scheme u) uses_netloc && negb (Str.is_empty (netloc u))
    then urlunparse u
    else
      let netloc' :=
        if mem (scheme u) uses_netloc then netloc b else netloc u in
      if Str.is_empty (path u) && Str.is_empty (params u) then
        urlunparse
          {| scheme := scheme u; netloc := netloc'; path := path b;
             params := params b;
             query := if Str.is_empty (query u) then query b else query u;
             fragment := fragment u |}
      else
        let base_parts :=
          let parts := Str.split "/" (path b) in
          if Str.is_empty (last parts EmptyString) then parts
          else removelast parts in
        let segments :=
          if Str.startswith "/" (path u) then Str.split "/" (path u)
          else filter_middle (base_parts ++ Str.split "/" (path u))%list in
        let resolved_path := resolve_dots segments in
        let resolved_path :=
          let l := last segments EmptyString in
          if String.eqb l "." || String.eqb l ".."
          then (resolved_path ++ [EmptyString])%list else resolved_path in
        let joined := Str.join "/" resolved_path in
        urlunparse
          {| scheme := scheme u; netloc := netloc';
             path := if Str.is_empty joined then "/" else joined;
             params := params u; query := query u;
             fragment := fragment u |}.

End urllib_parse.

(** ** Python values of the resolver *)

(** The exceptions the module can raise.  [ManifestUnreadable],
    [UnknownAsset] and [PolyfillsNotFound] of the design are all
    [RuntimeError]s, told apart by their message. *)
Inductive exn : Type :=
| RuntimeError (msg : string)
| KeyError (key : string)
| TypeError (msg : string)
| AttributeError (msg : string).

(** What a call does: it returns, it raises, or the recursion bound of
    the embedding is reached before it does either.  A call that is
    [OutOfFuel] for every bound recurses without end; the interpreter's
    own limit on the depth of recursion is not part of the embedding. *)
Inductive result (A : Type) : Type :=
| Ok (a : A)
| Exception (e : exn)
| OutOfFuel.

Arguments Ok {A} a.
Arguments Exception {A} e.
Arguments OutOfFuel {A}.

Definition bind {A B : Type} (r : result A) (k : A -> result B) : result B :=
  match r with
  | Ok a => k a
  | Exception e => Exception e
  | OutOfFuel => OutOfFuel
  end.

Notation "'let*' x ':=' e 'in' k" := (bind e (fun x => k))
  (at level 10, x pattern, e at level 100, k at level 200).

(** A [dict] from [str] to [str], in insertion order. *)
Definition dict : Type := list (string * string).

Fixpoint dict_get (d : dict) (k : string) : option string :=
  match d with
  | [] => None
  | (k', v) :: r => if String.eqb k' k then Some v else dict_get r k
  end.

(** [d[k] = v]: an existing key keeps its place. *)
Fixpoint dict_set (d : dict) (k v : string) : dict :=
  match d with
  | [] => [(k, v)]
  | (k', v') :: r =>
      if String.eqb k' k then (k', v) :: r else (k', v') :: dict_set r k v
  end.

(** [{**d, **kwargs}] *)
Definition dict_update (d kwargs : dict) : dict :=
  fold_left (fun acc kv => dict_set acc (fst kv) (snd kv)) kwargs d.

Definition keys {V : Type} (d : list (string * V)) : list string :=
  map fst d.

(** One object of [manifest.json]: the fields the module reads, each of
    which the document may leave out. *)
Record ManifestEntry : Type := {
  file : option string;
  imports : option (list string);
  css : option (list string) }.

(** The parsed manifest, a [dict] keyed by source path. *)
Definition Manifest : Type := list (string * ManifestEntry).

Fixpoint lookup (m : Manifest) (k : string) : option ManifestEntry :=
  match m with
  | [] => None
  | (k', e) :: r => if String.eqb k' k then Some e else lookup r k
  end.

Definition has_key (m : Manifest) (k : string) : bool :=
  match lookup m k with Some _ => true | None => false end.

(** [manifest_entry.get("imports", [])] *)
Definition get_imports (e : ManifestEntry) : list string :=
  match imports e with Some l => l | None => [] end.

Definition get_css (e : ManifestEntry) : list string :=
  match css e with Some l => l | None => [] end.

(** [manifest_entry["file"]] *)
Definition entry_file (e : ManifestEntry) : result string :=
  match file e with
  | Some f => Ok f
  | None => Exception (KeyError "file")
  end.

Record DjangoViteAssetLoader : Type := {
  _manifest : option Manifest }.

(** The settings the module reads when it is imported.  The [DJANGO_VITE_*]
    fields are the values of the module constants of the same name,
    [STATIC_URL] is Django's, and [staticfiles_storage] is the [url] method
    of the static files storage when [django.contrib.staticfiles] is
    installed. *)
Record Settings : Type := {
  DJANGO_VITE_DEV_MODE : bool;
  DJANGO_VITE_DEV_SERVER_PROTOCOL : string;
  DJANGO_VITE_DEV_SERVER_HOST : string;
  DJANGO_VITE_DEV_SERVER_PORT : N;
  DJANGO_VITE_WS_CLIENT_URL : string;
  DJANGO_VITE_REACT_REFRESH_URL : string;
  DJANGO_VITE_STATIC_URL_PREFIX : string;
  DJANGO_VITE_MANIFEST_PATH : string;
  DJANGO_VITE_LEGACY_POLYFILLS_MOTIF : string;
  STATIC_URL : string;
  staticfiles_storage : option (string -> string) }.

(** ** The tag generator *)

Module Tag.

Local Open Scope string_scope.

Definition attr (kv : string * string) : string :=
  fst kv ++ "=" ++ Str.dquote ++ snd kv ++ Str.dquote.

Definition attrs_str (attrs : dict) : string :=
  Str.join " " (map attr attrs).

Definition _generate_script_tag (src : string) (attrs : dict) : string :=
  "<script " ++ attrs_str attrs ++ " src=" ++ Str.dquote ++ src
    ++ Str.dquote ++ "></script>".

Definition _generate_stylesheet_tag (href : string) : string :=
  "<link rel=" ++ Str.dquote ++ "stylesheet" ++ Str.dquote
    ++ " href=" ++ Str.dquote ++ href ++ Str.dquote ++ " />".

Definition _generate_stylesheet_preload_tag (href : string) : string :=
  "<link rel=" ++ Str.dquote ++ "preload" ++ Str.dquote
    ++ " href=" ++ Str.dquote ++ href ++ Str.dquote
    ++ " as=" ++ Str.dquote ++ "style" ++ Str.dquote ++ " />".

Definition _generate_preload_tag (href : string) (attrs : dict) : string :=
  "<link href=" ++ Str.dquote ++ href ++ Str.dquote ++ " "
    ++ attrs_str attrs ++ " />".

End Tag.

(** ** Markup as text

    What each kind of tag reads, written out character by character: the
    operations are held against these texts, not against the functions
    of the module that produce them. *)

Module Html.

Local Open Scope string_scope.

Definition quoted (s : string) : string := Str.dquote ++ s ++ Str.dquote.

(** An attribute: its name, an equals sign, its value in double quotes. *)
Definition attribute (kv : string * string) : string :=
  fst kv ++ "=" ++ quoted (snd kv).

(** The attributes in the order of the list, one space between two. *)
Fixpoint attributes (attrs : dict) : string :=
  match attrs with
  | [] => EmptyString
  | [kv] => attribute kv
  | kv :: rest => attribute kv ++ " " ++ attributes rest
  end.

(** A script element: the attributes, then the source, no content. *)
Definition script (src : string) (attrs : dict) : string :=
  "<script " ++ attributes attrs ++ " src=" ++ quoted src ++ "></script>".

(** A stylesheet link. *)
Definition stylesheet (href : string) : string :=
  "<link rel=" ++ quoted "stylesheet" ++ " href=" ++ quoted href ++ " />".

(** A link that preloads a stylesheet. *)
Definition preload_style (href : string) : string :=
  "<link rel=" ++ quoted "preload" ++ " href=" ++ quoted href
    ++ " as=" ++ quoted "style" ++ " />".

(** A link that preloads a module script. *)
Definition modulepreload (href : string) : string :=
  "<link href=" ++ quoted href ++ " type=" ++ quoted "text/javascript"
    ++ " crossorigin=" ++ quoted "anonymous"
    ++ " rel=" ++ quoted "modulepreload" ++ " as=" ++ quoted "script"
    ++ " />".

End Html.

(** ** The asset loader *)

Section Loader.

(** [urllib.parse.urljoin] and the settings of the process *)
Variable urljoin : string -> string -> string.
Variable settings : Settings.

Local Abbreviation DEV_MODE := (DJANGO_VITE_DEV_MODE settings).
Local Abbreviation MANIFEST_PATH := (DJANGO_VITE_MANIFEST_PATH settings).

(** [DJANGO_VITE_STATIC_URL]: the joined static URL, made to end with a
    slash.  Were the joined URL empty, indexing its last character
    would raise while the module is imported, and there would be no
    operation to call: [module_imports] tells the two apart. *)
Definition module_imports : bool :=
  negb (Str.is_empty
          (urljoin (STATIC_URL settings)
                   (DJANGO_VITE_STATIC_URL_PREFIX settings))).

Definition DJANGO_VITE_STATIC_URL : string :=
  let u := urljoin (STATIC_URL settings)
                   (DJANGO_VITE_STATIC_URL_PREFIX settings) in
  if Str.endswith "/" u then u else (u ++ "/")%string.

(** *** URLs *)

Definition _generate_vite_server_url (path : string) : string :=
  urljoin
    (DJANGO_VITE_DEV_SERVER_PROTOCOL settings ++ "://"
       ++ DJANGO_VITE_DEV_SERVER_HOST settings ++ ":"
       ++ Str.of_N (DJANGO_VITE_DEV_SERVER_PORT settings))%string
    (urljoin DJANGO_VITE_STATIC_URL path).

Definition _generate_production_server_url (path : string) : string :=
  let prefix :=
    if Str.endswith "/" (DJANGO_VITE_STATIC_URL_PREFIX settings)
    then DJANGO_VITE_STATIC_URL_PREFIX settings
    else (DJANGO_VITE_STATIC_URL_PREFIX settings ++ "/")%string in
  let production_server_url := urljoin prefix path in
  match staticfiles_storage settings with
  | Some url => url production_server_url
  | None => production_server_url
  end.

(** *** Errors *)

(** [UnknownAsset] *)
Definition cannot_find (path : string) : exn :=
  RuntimeError
    ("Cannot find " ++ path ++ " in Vite manifest at " ++ MANIFEST_PATH).

(** [PolyfillsNotFound] *)
Definition polyfills_not_found : exn :=
  RuntimeError
    ("Vite legacy polyfills not found in manifest at " ++ MANIFEST_PATH).

(** [ManifestUnreadable], with the text of the error that caused it *)
Definition cannot_read (error : string) : exn :=
  RuntimeError
    ("Cannot read Vite manifest file at " ++ MANIFEST_PATH ++ " : "
       ++ error).

(** *** Manifest access *)

(** [self._manifest[path]] *)
Definition getitem (self : DjangoViteAssetLoader) (path : string)
  : result ManifestEntry :=
  match _manifest self with
  | None => Exception (TypeError "'NoneType' object is not subscriptable")
  | Some m =>
      match lookup m path with
      | Some e => Ok e
      | None => Exception (KeyError path)
      end
  end.

(** [not self._manifest or path not in self._manifest]: [None] and the
    empty [dict] are false, and [or] does not look at its second
    operand then. *)
Definition not_in_manifest (self : DjangoViteAssetLoader) (path : string)
  : bool :=
  match _manifest self with
  | None => true
  | Some [] => true
  | Some m => negb (has_key m path)
  end.

(** *** The dependency walker *)

(** The loop over [manifest_entry["css"]]: a tag for each path not yet
    in [already_processed], and every path appended to it. *)
Fixpoint css_loop (tag_generator : string -> string) (paths : list string)
  (tags already_processed : list string) : list string * list string :=
  match paths with
  | [] => (tags, already_processed)
  | css_path :: rest =>
      let tags :=
        if existsb (String.eqb css_path) already_processed then tags
        else tags ++ [tag_generator
                        (_generate_production_server_url css_path)] in
      css_loop tag_generator rest tags (already_processed ++ [css_path])
  end.

(** The loop over [manifest_entry["imports"]], given the recursive
    call. *)
Fixpoint imports_loop
  (walk : string -> list string -> result (list string * list string))
  (paths : list string) (tags already_processed : list string)
  : result (list string * list string) :=
  match paths with
  | [] => Ok (tags, already_processed)
  | import_path :: rest =>
      let* (t, ap) := walk import_path already_processed in
      imports_loop walk rest (tags ++ t) ap
  end.

(** [_generate_css_files_of_asset].  [already_processed] is a list the
    caller owns and the call extends: it is passed in and handed back
    with the tags. *)
Fixpoint _generate_css_files_of_asset (fuel : nat)
  (self : DjangoViteAssetLoader) (path : string)
  (already_processed : list string) (tag_generator : string -> string)
  : result (list string * list string) :=
  match fuel with
  | O => OutOfFuel
  | S fuel' =>
      let* manifest_entry := getitem self path in
      let* (tags, already_processed) :=
        match imports manifest_entry with
        | Some l =>
            imports_loop
              (fun import_path ap =>
                 _generate_css_files_of_asset fuel' self import_path ap
                   tag_generator)
              l [] already_processed
        | None => Ok ([], already_processed)
        end in
      match css manifest_entry with
      | Some l => Ok (css_loop tag_generator l tags already_processed)
      | None => Ok (tags, already_processed)
      end
  end.

Definition _load_css_files_of_asset (fuel : nat)
  (self : DjangoViteAssetLoader) (path : string)
  (already_processed : list string) : result (list string * list string) :=
  _generate_css_files_of_asset fuel self path already_processed
    Tag._generate_stylesheet_tag.

Definition _preload_css_files_of_asset (fuel : nat)
  (self : DjangoViteAssetLoader) (path : string)
  (already_processed : list string) : result (list string * list string) :=
  _generate_css_files_of_asset fuel self path already_processed
    Tag._generate_stylesheet_preload_tag.

(** *** The resolver's operations *)

Definition preload_attrs : dict :=
  [("type", "text/javascript"); ("crossorigin", "anonymous");
   ("rel", "modulepreload"); ("as", "script")].

(** The loop over [manifest_entry.get("imports", [])] that appends a
    preload tag for each dependency. *)
Fixpoint preload_imports (self : DjangoViteAssetLoader)
  (deps : list string) (tags : list string) : result (list string) :=
  match deps with
  | [] => Ok tags
  | dep :: rest =>
      let* dep_manifest_entry := getitem self dep in
      let* dep_file := entry_file dep_manifest_entry in
      preload_imports self rest
        (tags ++ [Tag._generate_preload_tag
                    (urljoin DJANGO_VITE_STATIC_URL dep_file)
                    preload_attrs])
  end.

Definition generate_vite_asset (fuel : nat) (self : DjangoViteAssetLoader)
  (path : string) (kwargs : dict) : result string :=
  if DEV_MODE then
    Ok (Tag._generate_script_tag (_generate_vite_server_url path)
          (dict_update [("type", "module")] kwargs))
  else if not_in_manifest self path then Exception (cannot_find path)
  else
    let tags : list string := [] in
    let* manifest_entry := getitem self path in
    let scripts_attrs :=
      dict_update [("type", "module"); ("crossorigin", Str.empty)] kwargs in
    let* (css_tags, _) := _load_css_files_of_asset fuel self path [] in
    let tags := tags ++ css_tags in
    let* entry_file := entry_file manifest_entry in
    let tags :=
      tags ++ [Tag._generate_script_tag
                 (_generate_production_server_url entry_file)
                 scripts_attrs] in
    let* tags := preload_imports self (get_imports manifest_entry) tags in
    Ok (Str.join Str.lf tags).

Definition preload_vite_asset (fuel : nat) (self : DjangoViteAssetLoader)
  (path : string) : result string :=
  if DEV_MODE then Ok Str.empty
  else if not_in_manifest self path then Exception (cannot_find path)
  else
    let tags : list string := [] in
    let* manifest_entry := getitem self path in
    let* entry_file := entry_file manifest_entry in
    let tags :=
      tags ++ [Tag._generate_preload_tag
                 (urljoin DJANGO_VITE_STATIC_URL entry_file)
                 preload_attrs] in
    let* (css_tags, _) := _preload_css_files_of_asset fuel self path [] in
    let tags := tags ++ css_tags in
    let* tags := preload_imports self (get_imports manifest_entry) tags in
    Ok (Str.join Str.lf tags).

Definition generate_vite_asset_url (self : DjangoViteAssetLoader)
  (path : string) : result string :=
  if DEV_MODE then Ok (_generate_vite_server_url path)
  else if not_in_manifest self path then Exception (cannot_find path)
  else
    let* manifest_entry := getitem self path in
    let* entry_file := entry_file manifest_entry in
    Ok (_generate_production_server_url entry_file).

(** The loop over [self._manifest.items()]: the first key that contains
    the motif decides. *)
Fixpoint find_polyfills (items : Manifest) (scripts_attrs : dict)
  : result string :=
  match items with
  | [] => Exception polyfills_not_found
  | (path, content) :: rest =>
      if Str.contains (DJANGO_VITE_LEGACY_POLYFILLS_MOTIF settings) path
      then
        let* content_file := entry_file content in
        Ok (Tag._generate_script_tag
              (_generate_production_server_url content_file)
              scripts_attrs)
      else find_polyfills rest scripts_attrs
  end.

Definition generate_vite_legacy_polyfills (self : DjangoViteAssetLoader)
  (kwargs : dict) : result string :=
  if DEV_MODE then Ok Str.empty
  else
    let scripts_attrs :=
      dict_update [("nomodule", Str.empty); ("crossorigin", Str.empty)]
        kwargs in
    match _manifest self with
    | None =>
        Exception
          (AttributeError "'NoneType' object has no attribute 'items'")
    | Some m => find_polyfills m scripts_attrs
    end.

Definition generate_vite_legacy_asset (self : DjangoViteAssetLoader)
  (path : string) (kwargs : dict) : result string :=
  if DEV_MODE then Ok Str.empty
  else if not_in_manifest self path then Exception (cannot_find path)
  else
    let* manifest_entry := getitem self path in
    let scripts_attrs :=
      dict_update [("nomodule", Str.empty); ("crossorigin", Str.empty)]
        kwargs in
    let* entry_file := entry_file manifest_entry in
    Ok (Tag._generate_script_tag
          (_generate_production_server_url entry_file) scripts_attrs).

Definition generate_vite_ws_client (kwargs : dict) : string :=
  if negb DEV_MODE then Str.empty
  else
    Tag._generate_script_tag
      (_generate_vite_server_url (DJANGO_VITE_WS_CLIENT_URL settings))
      (dict_update [("type", "module")] kwargs).

Definition generate_vite_react_refresh_url : string :=
  if negb DEV_MODE then Str.empty
  else
    ("<script type=" ++ Str.dquote ++ "module" ++ Str.dquote ++ ">"
       ++ Str.lf
       ++ "            import RefreshRuntime from             '"
       ++ _generate_vite_server_url (DJANGO_VITE_REACT_REFRESH_URL settings)
       ++ "'" ++ Str.lf
       ++ "            RefreshRuntime.injectIntoGlobalHook(window)"
       ++ Str.lf
       ++ "            window.$RefreshReg$ = () => {}" ++ Str.lf
       ++ "            window.$RefreshSig$ = () => (type) => type"
       ++ Str.lf
       ++ "            window.__vite_plugin_react_preamble_installed__ = true"
       ++ Str.lf
       ++ "        </script>")%string.

(** *** The singleton and the template tags *)

(** What outlives a call: the class attribute [_instance] (the loader and
    its [_manifest]) and, to see when the file system is touched, the
    paths handed to [open] so far. *)
Record World : Type := {
  cls_instance : option DjangoViteAssetLoader;
  opened : list string }.

Definition set_instance (self : DjangoViteAssetLoader) (w : World) : World :=
  {| cls_instance := Some self; opened := opened w |}.

Definition log_open (path : string) (w : World) : World :=
  {| cls_instance := cls_instance w; opened := opened w ++ [path] |}.

(** The file system and the JSON parser: [open(path).read()] gives the
    content or the text of the error it raises, [json.loads] the manifest
    or the text of its error.  Only documents of the manifest format are
    considered. *)
Variable open_read : string -> string + string.
Variable json_loads : string -> Manifest + string.

(** A call on the class: its result and the world it leaves, also when
    it raises. *)
Definition ST (A : Type) : Type := World -> result A * World.

(** [_parse_manifest]: what it would store in [self._manifest] is its
    result here, and [instance] stores it. *)
Definition _parse_manifest : ST Manifest := fun w =>
  let w := log_open MANIFEST_PATH w in
  match open_read MANIFEST_PATH with
  | inl manifest_content =>
      match json_loads manifest_content with
      | inl m => (Ok m, w)
      | inr error => (Exception (cannot_read error), w)
      end
  | inr error => (Exception (cannot_read error), w)
  end.

(** [instance()]: the new loader is stored in [_instance] before the
    manifest is parsed, so it stays there when parsing raises. *)
Definition instance : ST DjangoViteAssetLoader := fun w =>
  match cls_instance w with
  | Some self => (Ok self, w)
  | None =>
      let self := {| _manifest := None |} in
      let w := set_instance self w in
      if DEV_MODE then (Ok self, w)
      else
        match _parse_manifest w with
        | (Ok m, w) =>
            let self := {| _manifest := Some m |} in
            (Ok self, set_instance self w)
        | (Exception e, w) => (Exception e, w)
        | (OutOfFuel, w) => (OutOfFuel, w)
        end
  end.

(** [DjangoViteAssetLoader.instance().method(...)].  A tag asserts first
    that its path is not [None], which a string never is, and marks its
    result safe, which leaves the text as it is. *)
Definition on_instance {A : Type}
  (method : DjangoViteAssetLoader -> result A) : ST A := fun w =>
  match instance w with
  | (Ok self, w) => (method self, w)
  | (Exception e, w) => (Exception e, w)
  | (OutOfFuel, w) => (OutOfFuel, w)
  end.

Definition vite_hmr_client (kwargs : dict) : ST string := fun w =>
  (Ok (generate_vite_ws_client kwargs), w).

Definition vite_asset (fuel : nat) (path : string) (kwargs : dict)
  : ST string :=
  on_instance (fun self => generate_vite_asset fuel self path kwargs).

Definition vite_preload_asset (fuel : nat) (path : string) : ST string :=
  on_instance (fun self => preload_vite_asset fuel self path).

Definition vite_asset_url (path : string) : ST string :=
  on_instance (fun self => generate_vite_asset_url self path).

Definition vite_legacy_polyfills (kwargs : dict) : ST string :=
  on_instance (fun self => generate_vite_legacy_polyfills self kwargs).

Definition vite_legacy_asset (path : string) (kwargs : dict) : ST string :=
  on_instance (fun self => generate_vite_legacy_asset self path kwargs).

Definition vite_react_refresh : ST string := fun w =>
  (Ok generate_vite_react_refresh_url, w).

(** The seven operations of the resolver, with their arguments. *)
Inductive Operation : Type :=
| ViteHmrClient (kwargs : dict)
| ViteAsset (path : string) (kwargs : dict)
| VitePreloadAsset (path : string)
| ViteAssetUrl (path : string)
| ViteLegacyPolyfills (kwargs : dict)
| ViteLegacyAsset (path : string) (kwargs : dict)
| ViteReactRefresh.

Definition call (fuel : nat) (op : Operation) : ST string :=
  match op with
  | ViteHmrClient kwargs => vite_hmr_client kwargs
  | ViteAsset path kwargs => vite_asset fuel path kwargs
  | VitePreloadAsset path => vite_preload_asset fuel path
  | ViteAssetUrl path => vite_asset_url path
  | ViteLegacyPolyfills kwargs => vite_legacy_polyfills kwargs
  | ViteLegacyAsset path kwargs => vite_legacy_asset path kwargs
  | ViteReactRefresh => vite_react_refresh
  end.

End Loader.

(** ** The import graph and the CSS of a closure *)

(** [edge m a b]: entry [a] of the manifest lists [b] in its imports. *)
Definition edge (m : Manifest) (a b : string) : Prop :=
  exists e, lookup m a = Some e /\ In b (get_imports e).

(** No entry key is reachable from itself along import edges. *)
Definition acyclic (m : Manifest) : Prop :=
  forall k, ~ clos_trans string (edge m) k k.

(** Every key a traversal from [k] comes to, [k] included, is a key of
    the manifest. *)
Definition resolvable (m : Manifest) (k : string) : Prop :=
  forall j, clos_refl_trans string (edge m) k j -> has_key m j = true.

(** The CSS paths of the import closure of an entry, depth first: the
    paths of each import in turn, then the entry's own. A path occurs as
    often as it is come across. *)
Inductive css_closure (m : Manifest) : string -> list string -> Prop :=
| closure_entry k e deps :
    lookup m k = Some e ->
    css_closure_list m (get_imports e) deps ->
    css_closure m k (deps ++ get_css e)
with css_closure_list (m : Manifest) : list string -> list string -> Prop :=
| closure_nil : css_closure_list m [] []
| closure_cons i rest l1 l2 :
    css_closure m i l1 ->
    css_closure_list m rest l2 ->
    css_closure_list m (i :: rest) (l1 ++ l2).

(** [unseen seen l]: [l] without the paths of [seen] and without the
    second and later occurrences of a path. *)
Fixpoint unseen (seen l : list string) : list string :=
  match l with
  | [] => []
  | x :: r =>
      if existsb (String.eqb x) seen then unseen seen r
      else x :: unseen (x :: seen) r
  end.

(** Each path once, where it first occurs. *)
Definition first_occurrences (l : list string) : list string := unseen [] l.

(** The only attribute of [attrs] named [k] has the value [v]. *)
Definition only_value (attrs : dict) (k v : string) : Prop :=
  In (k, v) attrs /\ forall v', In (k, v') attrs -> v' = v.

(** A tag is a script tag when its text begins as one. *)
Definition is_script_tag (tag : string) : bool :=
  Str.startswith "<script " tag.

(** Each import of an entry with the output file of its own entry. *)
Definition import_files (m : Manifest) (deps files : list string) : Prop :=
  Forall2
    (fun dep dep_file =>
       exists e, lookup m dep = Some e /\ file e = Some dep_file)
    deps files.

(** Checks that decide the two conditions on a given manifest: imports
    strictly decrease a rank, and every import is a key. *)
Definition ranked (rank : string -> nat) (m : Manifest) : bool :=
  forallb
    (fun ke => forallb (fun i => Nat.ltb (rank i) (rank (fst ke)))
                 (get_imports (snd ke)))
    m.

Definition imports_closed (m : Manifest) : bool :=
  forallb (fun ke => forallb (has_key m) (get_imports (snd ke))) m.

(** A loader whose manifest was parsed. *)
Definition loaded (m : Manifest) : DjangoViteAssetLoader :=
  {| _manifest := Some m |}.

(** ** Sample data *)

Module Sample.

Local Open Scope string_scope.

Definition entry (f : string) (i c : list string) : ManifestEntry :=
  {| file := Some f; imports := Some i; css := Some c |}.

(** A parent whose two imports share a stylesheet. *)
Definition shared_css : Manifest :=
  [("parent.js", {| file := Some "assets/parent.js";
                    imports := Some ["A.js"; "B.js"]; css := None |});
   ("A.js", {| file := Some "assets/A.js"; imports := None;
               css := Some ["a.css"] |});
   ("B.js", {| file := Some "assets/B.js"; imports := None;
               css := Some ["a.css"; "b.css"] |})].

Definition shared_css_rank (k : string) : nat :=
  if String.eqb k "parent.js" then 1 else 0.

(** Two entries that import each other. *)
Definition cyclic : Manifest :=
  [("a.js", entry "assets/a.js" ["b.js"] ["a.css"]);
   ("b.js", entry "assets/b.js" ["a.js"] ["b.css"])].

(** An entry with one import, and the polyfills of the legacy build. *)
Definition with_polyfills : Manifest :=
  [("src/main.js", entry "assets/main.4f2a.js" ["_vendor.js"]
                     ["assets/main.91c0.css"]);
   ("_vendor.js", entry "assets/vendor.77b1.js" [] []);
   ("vite/legacy-polyfills", entry "assets/polyfills-legacy.0c3e.js" [] [])].

Definition with_polyfills_rank (k : string) : nat :=
  if String.eqb k "src/main.js" then 1 else 0.

(** The defaults of the module, over Django's usual [STATIC_URL]. *)
Definition production : Settings :=
  {| DJANGO_VITE_DEV_MODE := false;
     DJANGO_VITE_DEV_SERVER_PROTOCOL := "http";
     DJANGO_VITE_DEV_SERVER_HOST := "localhost";
     DJANGO_VITE_DEV_SERVER_PORT := 3000%N;
     DJANGO_VITE_WS_CLIENT_URL := "@vite/client";
     DJANGO_VITE_REACT_REFRESH_URL := "@react-refresh";
     DJANGO_VITE_STATIC_URL_PREFIX := Str.empty;
     DJANGO_VITE_MANIFEST_PATH := "/srv/static/manifest.json";
     DJANGO_VITE_LEGACY_POLYFILLS_MOTIF := "legacy-polyfills";
     STATIC_URL := "/static/";
     staticfiles_storage := None |}.

Definition development : Settings :=
  {| DJANGO_VITE_DEV_MODE := true;
     DJANGO_VITE_DEV_SERVER_PROTOCOL := "http";
     DJANGO_VITE_DEV_SERVER_HOST := "localhost";
     DJANGO_VITE_DEV_SERVER_PORT := 3000%N;
     DJANGO_VITE_WS_CLIENT_URL := "@vite/client";
     DJANGO_VITE_REACT_REFRESH_URL := "@react-refresh";
     DJANGO_VITE_STATIC_URL_PREFIX := Str.empty;
     DJANGO_VITE_MANIFEST_PATH := "/srv/assets/manifest.json";
     DJANGO_VITE_LEGACY_POLYFILLS_MOTIF := "legacy-polyfills";
     STATIC_URL := "/static/";
     staticfiles_storage := None |}.

(** Production with static files served by a storage that puts them
    under another origin. *)
Definition cdn_url (name : string) : string :=
  "https://cdn.example.com" ++ name.

Definition production_cdn : Settings :=
  {| DJANGO_VITE_DEV_MODE := false;
     DJANGO_VITE_DEV_SERVER_PROTOCOL := "http";
     DJANGO_VITE_DEV_SERVER_HOST := "localhost";
     DJANGO_VITE_DEV_SERVER_PORT := 3000%N;
     DJANGO_VITE_WS_CLIENT_URL := "@vite/client";
     DJANGO_VITE_REACT_REFRESH_URL := "@react-refresh";
     DJANGO_VITE_STATIC_URL_PREFIX := Str.empty;
     DJANGO_VITE_MANIFEST_PATH := "/srv/static/manifest.json";
     DJANGO_VITE_LEGACY_POLYFILLS_MOTIF := "legacy-polyfills";
     STATIC_URL := "/static/";
     staticfiles_storage := Some cdn_url |}.

(** A file system without the manifest file, and a parser that accepts
    nothing. *)
Definition no_file (path : string) : string + string :=
  inr ("[Errno 2] No such file or directory: '" ++ path ++ "'").

Definition no_json (content : string) : Manifest + string :=
  inr "Expecting value: line 1 column 1 (char 0)".

Definition fresh : World := {| cls_instance := None; opened := [] |}.

(** A file system with the given files, and a parser that knows the
    given documents. *)
Fixpoint assoc {V : Type} (l : list (string * V)) (k : string) : option V :=
  match l with
  | [] => None
  | (k', v) :: r => if String.eqb k' k then Some v else assoc r k
  end.

Definition disk (files : list (string * string)) (path : string)
  : string + string :=
  match assoc files path with
  | Some content => inl content
  | None => no_file path
  end.

Definition parser (documents : list (string * Manifest)) (content : string)
  : Manifest + string :=
  match assoc documents content with
  | Some m => inl m
  | None => no_json content
  end.

Definition quoted (s : string) : string := Str.dquote ++ s ++ Str.dquote.

(** A manifest file with one entry, and an empty one. *)
Definition one_entry : Manifest :=
  [("src/main.js", {| file := Some "assets/main.4f2a.js";
                      imports := None; css := None |})].

Definition one_entry_text : string :=
  "{" ++ quoted "src/main.js" ++ ": {" ++ quoted "file" ++ ": "
    ++ quoted "assets/main.4f2a.js" ++ "}}".

Definition empty_text : string := "{}".

Definition documents : list (string * Manifest) :=
  [(one_entry_text, one_entry); (empty_text, [])].

(** Two keys that contain the motif of the polyfills. *)
Definition two_polyfills : Manifest :=
  [("src/main.js", entry "assets/main.4f2a.js" [] []);
   ("vite/legacy-polyfills", entry "assets/polyfills-legacy.0c3e.js" [] []);
   ("vite/legacy-polyfills-old", entry "assets/polyfills-old.1d2f.js" [] [])].

(** Production with the prefix [vite], and with [vite/]. *)
Definition prefixed (prefix : string) : Settings :=
  {| DJANGO_VITE_DEV_MODE := false;
     DJANGO_VITE_DEV_SERVER_PROTOCOL := "http";
     DJANGO_VITE_DEV_SERVER_HOST := "localhost";
     DJANGO_VITE_DEV_SERVER_PORT := 3000%N;
     DJANGO_VITE_WS_CLIENT_URL := "@vite/client";
     DJANGO_VITE_REACT_REFRESH_URL := "@react-refresh";
     DJANGO_VITE_STATIC_URL_PREFIX := prefix;
     DJANGO_VITE_MANIFEST_PATH := "/srv/static/vite/manifest.json";
     DJANGO_VITE_LEGACY_POLYFILLS_MOTIF := "legacy-polyfills";
     STATIC_URL := "/static/";
     staticfiles_storage := None |}.

End Sample.

(** ** Sequences of calls and merged attributes *)

(** The world after a sequence of operations, each called in the world
    the one before left. *)
Definition run_all (urljoin : string -> string -> string)
  (settings : Settings) (open_read : string -> string + string)
  (json_loads : string -> Manifest + string) (fuel : nat)
  (ops : list Operation) (w : World) : World :=
  fold_left
    (fun w op => snd (call urljoin settings open_read json_loads fuel op w))
    ops w.

(** The defaults in their order, each with the caller's value when the
    caller names it, then the caller's other attributes in the caller's
    order. *)
Definition merged_attrs (defaults kwargs : dict) : dict :=
  map (fun kv =>
         (fst kv,
          match dict_get kwargs (fst kv) with
          | Some v => v
          | None => snd kv
          end))
    defaults
  ++ filter (fun kv => negb (existsb (String.eqb (fst kv)) (keys defaults)))
       kwargs.

(** The settings with another static URL prefix. *)
Definition with_prefix (s : Settings) (prefix : string) : Settings :=
  {| DJANGO_VITE_DEV_MODE := DJANGO_VITE_DEV_MODE s;
     DJANGO_VITE_DEV_SERVER_PROTOCOL := DJANGO_VITE_DEV_SERVER_PROTOCOL s;
     DJANGO_VITE_DEV_SERVER_HOST := DJANGO_VITE_DEV_SERVER_HOST s;
     DJANGO_VITE_DEV_SERVER_PORT := DJANGO_VITE_DEV_SERVER_PORT s;
     DJANGO_VITE_WS_CLIENT_URL := DJANGO_VITE_WS_CLIENT_URL s;
     DJANGO_VITE_REACT_REFRESH_URL := DJANGO_VITE_REACT_REFRESH_URL s;
     DJANGO_VITE_STATIC_URL_PREFIX := prefix;
     DJANGO_VITE_MANIFEST_PATH := DJANGO_VITE_MANIFEST_PATH s;
     DJANGO_VITE_LEGACY_POLYFILLS_MOTIF :=
       DJANGO_VITE_LEGACY_POLYFILLS_MOTIF s;
     STATIC_URL := STATIC_URL s;
     staticfiles_storage := staticfiles_storage s |}.

(** The operations that go through [instance()], and the path of those
    that take one. *)
Definition uses_loader (op : Operation) : bool :=
  match op with
  | ViteHmrClient _ | ViteReactRefresh => false
  | _ => true
  end.

Definition path_of (op : Operation) : option string :=
  match op with
  | ViteAsset path _ | VitePreloadAsset path | ViteAssetUrl path
  | ViteLegacyAsset path _ => Some path
  | _ => None
  end.

(** * Properties *)

(** ** Lists of paths *)

Lemma existsb_eqb_In (x : string) (l : list string) :
  existsb (String.eqb x) l = true <-> In x l.
Proof.
  rewrite existsb_exists. split.
  - intros [y [Hy Heq]]. apply String.eqb_eq in Heq. now subst.
  - intros H. exists x. split; [assumption | apply String.eqb_refl].
Qed.

Lemma existsb_eqb_ext (x : string) (s1 s2 : list string) :
  (forall y, In y s1 <-> In y s2) ->
  existsb (String.eqb x) s1 = existsb (String.eqb x) s2.
Proof.
  intros H. apply eq_true_iff_eq. rewrite !existsb_eqb_In. apply H.
Qed.

Lemma unseen_ext (l s1 s2 : list string) :
  (forall x, In x s1 <-> In x s2) -> unseen s1 l = unseen s2 l.
Proof.
  revert s1 s2. induction l as [|x r IH]; intros s1 s2 H; simpl.
  - reflexivity.
  - rewrite (existsb_eqb_ext x s1 s2 H).
    destruct (existsb (String.eqb x) s2).
    + now apply IH.
    + f_equal. apply IH. intros y. simpl. rewrite H. tauto.
Qed.

Lemma unseen_app (l1 l2 s : list string) :
  unseen s (l1 ++ l2) = unseen s l1 ++ unseen (s ++ l1) l2.
Proof.
  revert s. induction l1 as [|x r IH]; intros s; simpl.
  - now rewrite app_nil_r.
  - destruct (existsb (String.eqb x) s) eqn:E.
    + rewrite IH. f_equal. apply unseen_ext.
      intros y. rewrite !in_app_iff. simpl.
      apply existsb_eqb_In in E. split; [tauto|].
      intros [H|[H|H]]; subst; tauto.
    + rewrite IH. simpl. do 2 f_equal. apply unseen_ext.
      intros y. simpl. rewrite !in_app_iff. simpl. tauto.
Qed.

Lemma unseen_In (l s : list string) (x : string) :
  In x (unseen s l) <-> In x l /\ ~ In x s.
Proof.
  revert s. induction l as [|y r IH]; intros s; simpl.
  - tauto.
  - destruct (existsb (String.eqb y) s) eqn:E.
    + apply existsb_eqb_In in E. rewrite IH. split.
      * tauto.
      * intros [[H|H] Hn]; [subst; contradiction | tauto].
    + assert (Hy : ~ In y s).
      { intros H. apply existsb_eqb_In in H. congruence. }
      simpl. rewrite IH. simpl. split.
      * intros [H|[H Hn]]; [subst; tauto | tauto].
      * intros [[H|H] Hn]; [tauto|].
        destruct (string_dec y x); [tauto|]. right. tauto.
Qed.

Lemma unseen_NoDup (l s : list string) : NoDup (unseen s l).
Proof.
  revert s. induction l as [|y r IH]; intros s; simpl.
  - constructor.
  - destruct (existsb (String.eqb y) s); [apply IH|].
    constructor; [|apply IH].
    rewrite unseen_In. simpl. tauto.
Qed.

(** A path of [l] keeps the place of its first occurrence: what comes
    before it in the result is what comes before that occurrence. *)
Lemma first_occurrences_place (l1 l2 : list string) (x : string) :
  ~ In x l1 ->
  first_occurrences (l1 ++ x :: l2) =
  first_occurrences l1 ++ x :: unseen (l1 ++ [x]) l2.
Proof.
  intros Hx. unfold first_occurrences. rewrite unseen_app. simpl.
  destruct (existsb (String.eqb x) l1) eqn:E.
  - apply existsb_eqb_In in E. contradiction.
  - do 2 f_equal. apply unseen_ext. intros y. simpl.
    rewrite in_app_iff. simpl. tauto.
Qed.

(** ** Manifests *)

Lemma lookup_In (m : Manifest) (k : string) (e : ManifestEntry) :
  lookup m k = Some e -> In (k, e) m.
Proof.
  induction m as [|[k' e'] r IH]; simpl; [discriminate|].
  destruct (String.eqb k' k) eqn:E.
  - apply String.eqb_eq in E. intros [= <-]. subst. now left.
  - intros H. right. now apply IH.
Qed.

Lemma has_key_In (m : Manifest) (k : string) :
  has_key m k = true -> In k (keys m).
Proof.
  unfold has_key. destruct (lookup m k) as [e|] eqn:E; [|discriminate].
  intros _. apply lookup_In in E. unfold keys.
  change k with (fst (k, e)). now apply in_map.
Qed.

Lemma ranked_acyclic (rank : string -> nat) (m : Manifest) :
  ranked rank m = true -> acyclic m.
Proof.
  intros H.
  assert (Hedge : forall a b, edge m a b -> rank b < rank a).
  { intros a b [e [Hl Hi]]. apply lookup_In in Hl.
    unfold ranked in H. rewrite forallb_forall in H.
    specialize (H _ Hl). simpl in H. rewrite forallb_forall in H.
    apply Nat.ltb_lt. now apply H. }
  assert (Hpath : forall a b, clos_trans string (edge m) a b ->
                              rank b < rank a).
  { induction 1 as [a b Hab | a b c _ IH1 _ IH2].
    - now apply Hedge.
    - lia. }
  intros k Hk. apply Hpath in Hk. lia.
Qed.

Lemma imports_closed_resolvable (m : Manifest) (k : string) :
  imports_closed m = true -> has_key m k = true -> resolvable m k.
Proof.
  intros H Hk j Hj. apply clos_rt_rtn1 in Hj.
  induction Hj as [|b c [e [Hl Hi]] _ IH]; [assumption|].
  apply lookup_In in Hl. unfold imports_closed in H.
  rewrite forallb_forall in H. specialize (H _ Hl). simpl in H.
  rewrite forallb_forall in H. now apply H.
Qed.

Lemma resolvable_step (m : Manifest) (k i : string) :
  resolvable m k -> edge m k i -> resolvable m i.
Proof.
  intros H He j Hj. apply H.
  eapply rt_trans; [apply rt_step; eassumption | assumption].
Qed.

(** ** The dependency walker *)

Section Walker.

Variable urljoin : string -> string -> string.
Variable settings : Settings.
Variable tag_generator : string -> string.
Variable m : Manifest.

(** The tag of a CSS path, and the walk over the loaded manifest. *)
Let tag (css_path : string) : string :=
  tag_generator (_generate_production_server_url urljoin settings css_path).

Let walk (fuel : nat) (path : string) (ap : list string) :=
  _generate_css_files_of_asset urljoin settings fuel (loaded m) path ap
    tag_generator.

Lemma css_loop_spec (l tags ap : list string) :
  css_loop urljoin settings tag_generator l tags ap =
  (tags ++ map tag (unseen ap l), ap ++ l).
Proof.
  revert tags ap. induction l as [|x r IH]; intros tags ap; simpl.
  - now rewrite !app_nil_r.
  - rewrite IH. rewrite <- app_assoc. simpl.
    destruct (existsb (String.eqb x) ap) eqn:E.
    + f_equal. f_equal. f_equal. apply unseen_ext.
      intros y. rewrite in_app_iff. simpl.
      apply existsb_eqb_In in E. split; [|tauto].
      intros [H|[H|[]]]; subst; tauto.
    + rewrite <- app_assoc. simpl. f_equal. f_equal. f_equal. f_equal.
      apply unseen_ext. intros y. rewrite in_app_iff. simpl. tauto.
Qed.

Lemma walk_S (fuel : nat) (path : string) (ap : list string) :
  walk (S fuel) path ap =
  match lookup m path with
  | None => Exception (KeyError path)
  | Some e =>
      let* (tags, ap1) :=
        imports_loop (walk fuel) (get_imports e) [] ap in
      Ok (css_loop urljoin settings tag_generator (get_css e) tags ap1)
  end.
Proof.
  unfold walk. simpl. unfold getitem. simpl.
  destruct (lookup m path) as [e|]; simpl; [|reflexivity].
  unfold get_imports, get_css.
  destruct (imports e) as [l|]; simpl.
  - match goal with |- bind ?x _ = bind ?y _ =>
      change y with x; destruct x as [[t a]| |] end; simpl;
      try reflexivity.
    now destruct (css e).
  - now destruct (css e).
Qed.

Lemma imports_loop_sound (w : string -> list string ->
                              result (list string * list string))
  (paths : list string) :
  (forall p ap tags ap', In p paths -> w p ap = Ok (tags, ap') ->
     exists l, css_closure m p l /\ tags = map tag (unseen ap l)
               /\ ap' = ap ++ l) ->
  forall tags0 ap0 tags ap',
    imports_loop w paths tags0 ap0 = Ok (tags, ap') ->
    exists l, css_closure_list m paths l
              /\ tags = tags0 ++ map tag (unseen ap0 l)
              /\ ap' = ap0 ++ l.
Proof.
  induction paths as [|p r IH]; intros Hw tags0 ap0 tags ap'; simpl.
  - intros [= <- <-]. exists []. simpl. rewrite !app_nil_r.
    repeat split. constructor.
  - destruct (w p ap0) as [[t a]| |] eqn:E; simpl; try discriminate.
    intros H.
    destruct (Hw p ap0 t a (or_introl eq_refl) E) as [l1 [H1 [-> ->]]].
    apply IH in H; [|intros; eapply Hw; [now right | eassumption]].
    destruct H as [l2 [H2 [-> ->]]].
    exists (l1 ++ l2). split; [now constructor|].
    rewrite unseen_app, map_app, !app_assoc. tauto.
Qed.

(** What a walk returns is the closure's CSS, less the paths already
    processed, and it hands back every path it came across. *)
Lemma walk_sound (fuel : nat) :
  forall path ap tags ap',
    walk fuel path ap = Ok (tags, ap') ->
    exists l, css_closure m path l /\ tags = map tag (unseen ap l)
              /\ ap' = ap ++ l.
Proof.
  induction fuel as [|fuel IH]; intros path ap tags ap'.
  - discriminate.
  - rewrite walk_S. destruct (lookup m path) as [e|] eqn:El;
      [|discriminate].
    destruct (imports_loop (walk fuel) (get_imports e) [] ap)
      as [[t a]| |] eqn:E; simpl; try discriminate.
    apply imports_loop_sound in E; [|intros; eapply IH; eassumption].
    destruct E as [deps [Hd [-> ->]]]. simpl.
    rewrite css_loop_spec. intros [= <- <-].
    exists (deps ++ get_css e). split; [now econstructor|].
    rewrite unseen_app, map_app, app_assoc. tauto.
Qed.

Lemma imports_loop_mono (w1 w2 : string -> list string ->
                                 result (list string * list string))
  (paths : list string) :
  (forall p ap r, w1 p ap = Ok r -> w2 p ap = Ok r) ->
  forall tags ap r,
    imports_loop w1 paths tags ap = Ok r ->
    imports_loop w2 paths tags ap = Ok r.
Proof.
  intros Hw. induction paths as [|p rest IH]; intros tags ap r; simpl.
  - trivial.
  - destruct (w1 p ap) as [[t a]| |] eqn:E; simpl; try discriminate.
    rewrite (Hw _ _ _ E). simpl. apply IH.
Qed.

(** A larger bound does not change what a walk returns. *)
Lemma walk_mono (fuel fuel' : nat) :
  fuel <= fuel' ->
  forall path ap r, walk fuel path ap = Ok r -> walk fuel' path ap = Ok r.
Proof.
  revert fuel'. induction fuel as [|fuel IH]; intros fuel' Hle path ap r.
  - discriminate.
  - destruct fuel' as [|fuel']; [lia|].
    rewrite !walk_S. destruct (lookup m path) as [e|]; [|trivial].
    destruct (imports_loop (walk fuel) (get_imports e) [] ap)
      as [[t a]| |] eqn:E; simpl; try discriminate.
    apply (imports_loop_mono (walk fuel) (walk fuel')) in E;
      [|apply IH; lia].
    rewrite E. trivial.
Qed.

Lemma imports_loop_total (w : string -> list string ->
                              result (list string * list string))
  (paths : list string) :
  (forall p ap, In p paths -> exists r, w p ap = Ok r) ->
  forall tags ap, exists r, imports_loop w paths tags ap = Ok r.
Proof.
  induction paths as [|p rest IH]; intros Hw tags ap; simpl.
  - eauto.
  - destruct (Hw p ap (or_introl eq_refl)) as [[t a] E]. rewrite E. simpl.
    apply IH. intros. apply Hw. now right.
Qed.

(** The walk returns once the bound exceeds the number of keys: the
    chain of calls in progress visits pairwise distinct keys of the
    manifest, or a key would be reachable from itself. *)
Lemma walk_returns_on_stack (fuel : nat) :
  forall path stack ap,
    acyclic m ->
    resolvable m path ->
    NoDup (path :: stack) ->
    incl stack (keys m) ->
    (forall a, In a stack -> clos_trans string (edge m) a path) ->
    length m < fuel + length (path :: stack) ->
    exists r, walk fuel path ap = Ok r.
Proof.
  induction fuel as [|fuel IH];
    intros path stack ap Hacyc Hres Hnd Hincl Hanc Hlen.
  - exfalso.
    assert (Hk : In path (keys m)).
    { apply has_key_In, Hres, rt_refl. }
    assert (Hle : length (path :: stack) <= length (keys m)).
    { apply NoDup_incl_length; [assumption|].
      intros x [<-|Hx]; [assumption | now apply Hincl]. }
    unfold keys in Hle. rewrite length_map in Hle. simpl in *. lia.
  - rewrite walk_S.
    assert (Hk : has_key m path = true) by apply Hres, rt_refl.
    unfold has_key in Hk.
    destruct (lookup m path) as [e|] eqn:El; [|discriminate].
    assert (Himp : forall p ap0, In p (get_imports e) ->
                                 exists r, walk fuel p ap0 = Ok r).
    { intros p ap0 Hp.
      assert (Hedge : edge m path p) by (exists e; tauto).
      apply IH with (stack := path :: stack).
      - assumption.
      - eapply resolvable_step; eassumption.
      - constructor; [|assumption].
        intros [<-|Hin].
        + apply (Hacyc path). now apply t_step.
        + apply (Hacyc p). eapply t_trans;
            [apply Hanc; eassumption | now apply t_step].
      - intros x [<-|Hx]; [|now apply Hincl].
        apply has_key_In, Hres, rt_refl.
      - intros a [<-|Ha]; [now apply t_step|].
        eapply t_trans; [now apply Hanc | now apply t_step].
      - simpl in *. lia. }
    destruct (imports_loop_total (walk fuel) (get_imports e) Himp [] ap)
      as [[t a] E].
    rewrite E. simpl. eauto.
Qed.

Lemma walk_returns (fuel : nat) (path : string) (ap : list string) :
  acyclic m -> resolvable m path -> length m < fuel ->
  exists l, css_closure m path l /\
            walk fuel path ap = Ok (map tag (unseen ap l), ap ++ l).
Proof.
  intros Hacyc Hres Hlen.
  destruct (walk_returns_on_stack fuel path [] ap) as [[tags ap'] E];
    try assumption.
  - constructor; [tauto | constructor].
  - intros x [].
  - intros a [].
  - simpl. lia.
  - destruct (walk_sound fuel path ap tags ap' E) as [l [Hl [-> ->]]]. eauto.
Qed.

(** With every traversed key present the walk raises nothing. *)
Lemma imports_loop_no_exception
  (w : string -> list string -> result (list string * list string))
  (paths : list string) :
  (forall p ap e, In p paths -> w p ap <> Exception e) ->
  forall tags ap e, imports_loop w paths tags ap <> Exception e.
Proof.
  induction paths as [|p rest IH]; intros Hw tags ap e; simpl.
  - discriminate.
  - destruct (w p ap) as [[t a]| |] eqn:E; simpl.
    + apply IH. intros. apply Hw. now right.
    + exfalso. eapply Hw; [now left | eassumption].
    + discriminate.
Qed.

Lemma walk_no_exception (fuel : nat) :
  forall path ap e,
    resolvable m path -> walk fuel path ap <> Exception e.
Proof.
  induction fuel as [|fuel IH]; intros path ap e Hres.
  - discriminate.
  - rewrite walk_S.
    assert (Hk : has_key m path = true) by apply Hres, rt_refl.
    unfold has_key in Hk.
    destruct (lookup m path) as [en|] eqn:El; [|discriminate].
    destruct (imports_loop (walk fuel) (get_imports en) [] ap)
      as [[t a]| |] eqn:E; simpl; try discriminate.
    exfalso. revert E. apply imports_loop_no_exception.
    intros p ap0 e' Hp. apply IH.
    eapply resolvable_step; [eassumption | exists en; tauto].
Qed.

(** A walk that returns has had every import return under a smaller
    bound. *)
Lemma imports_loop_calls
  (w : string -> list string -> result (list string * list string))
  (paths : list string) :
  forall tags ap r p,
    imports_loop w paths tags ap = Ok r -> In p paths ->
    exists ap0 r0, w p ap0 = Ok r0.
Proof.
  induction paths as [|q rest IH]; intros tags ap r p; simpl.
  - tauto.
  - destruct (w q ap) as [[t a]| |] eqn:E; simpl; try discriminate.
    intros H [<-|Hp]; [eauto | eapply IH; eassumption].
Qed.

Lemma walk_calls_import (fuel : nat) (path i : string)
  (ap : list string) (r : list string * list string) :
  walk fuel path ap = Ok r -> edge m path i ->
  exists fuel' ap0 r0, fuel' < fuel /\ walk fuel' i ap0 = Ok r0.
Proof.
  destruct fuel as [|fuel]; [discriminate|].
  rewrite walk_S. intros H [e [El Hi]]. rewrite El in H.
  destruct (imports_loop (walk fuel) (get_imports e) [] ap)
    as [[t a]| |] eqn:E; simpl in H; try discriminate.
  destruct (imports_loop_calls (walk fuel) (get_imports e) [] ap (t, a) i E Hi)
    as [ap0 [r0 H0]].
  exists fuel, ap0, r0. split; [lia | assumption].
Qed.

Lemma walk_calls_reachable (path j : string) :
  clos_trans string (edge m) path j ->
  forall fuel ap r,
    walk fuel path ap = Ok r ->
    exists fuel' ap0 r0, fuel' < fuel /\ walk fuel' j ap0 = Ok r0.
Proof.
  induction 1 as [a b Hab | a b c _ IH1 _ IH2]; intros fuel ap r H.
  - eapply walk_calls_import; eassumption.
  - destruct (IH1 _ _ _ H) as [f1 [ap1 [r1 [Hlt1 H1]]]].
    destruct (IH2 _ _ _ H1) as [f2 [ap2 [r2 [Hlt2 H2]]]].
    exists f2, ap2, r2. split; [lia | assumption].
Qed.

(** On a key that is reachable from itself no bound is enough. *)
Lemma walk_cycle_never_returns (path : string) :
  clos_trans string (edge m) path path ->
  forall fuel ap r, walk fuel path ap <> Ok r.
Proof.
  intros Hcyc fuel.
  induction fuel as [fuel IH] using lt_wf_ind. intros ap r H.
  destruct (walk_calls_reachable path path Hcyc fuel ap r H)
    as [f [ap0 [r0 [Hlt H0]]]].
  exact (IH f Hlt ap0 r0 H0).
Qed.

Lemma walk_cycle_out_of_fuel (path j : string) :
  resolvable m path ->
  clos_refl_trans string (edge m) path j ->
  clos_trans string (edge m) j j ->
  forall fuel ap, walk fuel path ap = OutOfFuel.
Proof.
  intros Hres Hreach Hcyc fuel ap.
  destruct (walk fuel path ap) as [r|e|] eqn:E; [exfalso|exfalso|reflexivity].
  - assert (Hpj : clos_trans string (edge m) path j).
    { eapply clos_rt_t; eassumption. }
    destruct (walk_calls_reachable path j Hpj fuel ap r E)
      as [f [ap0 [r0 [_ H0]]]].
    exact (walk_cycle_never_returns j Hcyc f ap0 r0 H0).
  - exact (walk_no_exception fuel path ap e Hres E).
Qed.

End Walker.

Scheme css_closure_mut := Minimality for css_closure Sort Prop
  with css_closure_list_mut := Minimality for css_closure_list Sort Prop.

(** The closure lists one sequence of paths. *)
Lemma css_closure_fun (m : Manifest) (k : string) (l1 : list string) :
  css_closure m k l1 -> forall l2, css_closure m k l2 -> l1 = l2.
Proof.
  intros H.
  induction H using css_closure_mut
    with (P0 := fun paths l1 =>
                  forall l2, css_closure_list m paths l2 -> l1 = l2).
  - intros l2 H2. inversion H2 as [k' e' deps' El' Hd']; subst.
    assert (e' = e) by congruence. subst e'.
    f_equal. now apply IHcss_closure.
  - intros l2 H2. now inversion H2.
  - intros l3 H3. inversion H3 as [|i' rest' l1' l2' Hi Hr]; subst.
    f_equal; [now apply IHcss_closure | now apply IHcss_closure0].
Qed.

(** C1. For a manifest whose import graph is acyclic, and an entry key
    from which every traversed key is present, the CSS collection returns
    the tags of the CSS paths of the entry's import closure, taken depth
    first with the imports of a node before the node's own paths, each
    path once and at the place of its first occurrence. *)
Theorem collect_css_first_occurrences
  (urljoin : string -> string -> string) (settings : Settings)
  (tag_generator : string -> string) (m : Manifest) (k : string) :
  acyclic m ->
  resolvable m k ->
  exists l,
    css_closure m k l /\
    NoDup (first_occurrences l) /\
    (forall c, In c (first_occurrences l) <-> In c l) /\
    (forall l1 c l2,
       l = l1 ++ c :: l2 -> ~ In c l1 ->
       first_occurrences l =
       first_occurrences l1 ++ c :: unseen (l1 ++ [c]) l2) /\
    forall fuel, length m < fuel ->
      _generate_css_files_of_asset urljoin settings fuel (loaded m) k []
        tag_generator =
      Ok (map (fun css_path =>
                 tag_generator
                   (_generate_production_server_url urljoin settings
                      css_path))
            (first_occurrences l), l).
Proof.
  intros Hacyc Hres.
  destruct (walk_returns urljoin settings tag_generator m
              (S (length m)) k [] Hacyc Hres (Nat.lt_succ_diag_r _))
    as [l [Hl _]].
  exists l. split; [assumption|]. split; [apply unseen_NoDup|].
  split; [|split].
  - intros c. unfold first_occurrences. rewrite unseen_In. simpl. tauto.
  - intros l1 c l2 -> Hc. now apply first_occurrences_place.
  - intros fuel Hfuel.
    destruct (walk_returns urljoin settings tag_generator m fuel k []
                Hacyc Hres Hfuel) as [l' [Hl' E]].
    rewrite (css_closure_fun m k l Hl l' Hl'). exact E.
Qed.

(** The parent of the design's example: imports [A, B], where A has the
    stylesheet [a.css] and B has [a.css] and [b.css]. *)
Lemma collect_css_shared_stylesheet :
  acyclic Sample.shared_css /\
  resolvable Sample.shared_css "parent.js" /\
  _generate_css_files_of_asset urllib_parse.urljoin Sample.production 4
    (loaded Sample.shared_css) "parent.js" [] (fun href => href) =
  Ok (["/a.css"; "/b.css"], ["a.css"; "a.css"; "b.css"]).
Proof.
  assert (Ha : acyclic Sample.shared_css).
  { apply (ranked_acyclic Sample.shared_css_rank). reflexivity. }
  assert (Hr : resolvable Sample.shared_css "parent.js").
  { apply imports_closed_resolvable; reflexivity. }
  split; [exact Ha|]. split; [exact Hr|].
  destruct (collect_css_first_occurrences urllib_parse.urljoin
              Sample.production (fun href => href) Sample.shared_css
              "parent.js" Ha Hr) as [l [Hl [_ [_ [_ Hrun]]]]].
  assert (El : l = ["a.css"; "a.css"; "b.css"]).
  { apply (css_closure_fun Sample.shared_css "parent.js" l Hl).
    apply (closure_entry Sample.shared_css "parent.js" _
             ["a.css"; "a.css"; "b.css"] eq_refl).
    apply (closure_cons Sample.shared_css "A.js" ["B.js"]
             ["a.css"] ["a.css"; "b.css"]).
    - apply (closure_entry Sample.shared_css "A.js" _ [] eq_refl).
      constructor.
    - apply (closure_cons Sample.shared_css "B.js" []
               ["a.css"; "b.css"] []).
      + apply (closure_entry Sample.shared_css "B.js" _ [] eq_refl).
        constructor.
      + constructor. }
  rewrite (Hrun 4 (Nat.lt_succ_diag_r 3)). rewrite El. reflexivity.
Defined.

(** C8. With every traversed key present, the recursive CSS collection
    returns on a manifest whose import graph is acyclic, and acyclicity
    is needed: when the traversal reaches a key that is reachable from
    itself, no recursion bound lets the call return. *)
Theorem css_collection_terminates
  (urljoin : string -> string -> string) (settings : Settings)
  (tag_generator : string -> string) (m : Manifest) (k : string)
  (already_processed : list string) :
  resolvable m k ->
  (acyclic m ->
   forall fuel, length m < fuel ->
     exists r,
       _generate_css_files_of_asset urljoin settings fuel (loaded m) k
         already_processed tag_generator = Ok r) /\
  (forall j,
     clos_refl_trans string (edge m) k j ->
     clos_trans string (edge m) j j ->
     forall fuel,
       _generate_css_files_of_asset urljoin settings fuel (loaded m) k
         already_processed tag_generator = OutOfFuel).
Proof.
  intros Hres. split.
  - intros Hacyc fuel Hfuel.
    destruct (walk_returns urljoin settings tag_generator m fuel k
                already_processed Hacyc Hres Hfuel) as [l [_ E]].
    eauto.
  - intros j Hreach Hcyc fuel.
    now apply (walk_cycle_out_of_fuel urljoin settings tag_generator m k j).
Qed.

Lemma css_collection_terminates_samples :
  (exists r,
     _generate_css_files_of_asset urllib_parse.urljoin Sample.production 4
       (loaded Sample.shared_css) "parent.js" []
       Tag._generate_stylesheet_tag = Ok r) /\
  (forall fuel,
     _generate_css_files_of_asset urllib_parse.urljoin Sample.production
       fuel (loaded Sample.cyclic) "a.js" []
       Tag._generate_stylesheet_tag = OutOfFuel).
Proof.
  split.
  - apply (css_collection_terminates urllib_parse.urljoin
             Sample.production Tag._generate_stylesheet_tag
             Sample.shared_css "parent.js" []).
    + apply imports_closed_resolvable; reflexivity.
    + apply (ranked_acyclic Sample.shared_css_rank). reflexivity.
    + simpl. lia.
  - apply (css_collection_terminates urllib_parse.urljoin
             Sample.production Tag._generate_stylesheet_tag
             Sample.cyclic "a.js" []) with (j := "a.js").
    + apply imports_closed_resolvable; reflexivity.
    + apply rt_refl.
    + apply t_trans with (y := "b.js"); apply t_step.
      * exists (Sample.entry "assets/a.js" ["b.js"] ["a.css"]).
        split; [reflexivity | now left].
      * exists (Sample.entry "assets/b.js" ["a.js"] ["b.css"]).
        split; [reflexivity | now left].
Defined.

(** ** Substrings *)

Lemma startswith_spec (p s : string) :
  Str.startswith p s = true <-> exists b, s = (p ++ b)%string.
Proof.
  revert s. induction p as [|a p IH]; intros s; simpl.
  - split; [intros _; now exists s | reflexivity].
  - destruct s as [|c s].
    + split; [discriminate | intros [b Hb]; discriminate].
    + rewrite andb_true_iff, Ascii.eqb_eq, IH. split.
      * intros [-> [b ->]]. now exists b.
      * intros [b [= -> ->]]. split; [reflexivity | now exists b].
Qed.

(** [Str.contains] is Python's substring test. *)
Lemma contains_spec (p s : string) :
  Str.contains p s = true <-> exists a b, s = (a ++ p ++ b)%string.
Proof.
  induction s as [|c s IH].
  - simpl. rewrite orb_false_r, startswith_spec. split.
    + intros [b Hb]. now exists EmptyString, b.
    + intros [a [b Hab]]. destruct a; [now exists b | discriminate].
  - cbn [Str.contains]. rewrite orb_true_iff, startswith_spec, IH. split.
    + intros [[b Hb]|[a [b Hab]]].
      * now exists EmptyString, b.
      * exists (String c a), b. simpl. now rewrite Hab.
    + intros [a [b Hab]]. destruct a as [|c' a].
      * left. now exists b.
      * right. injection Hab as _ Hab. now exists a, b.
Qed.

(** ** Attribute dictionaries *)

Lemma dict_set_get_same (d : dict) (k v : string) :
  dict_get (dict_set d k v) k = Some v.
Proof.
  induction d as [|[k' v'] r IH]; simpl.
  - now rewrite String.eqb_refl.
  - destruct (String.eqb k' k) eqn:E; simpl; rewrite E; auto.
Qed.

Lemma dict_set_get_other (d : dict) (k k' v : string) :
  k' <> k -> dict_get (dict_set d k v) k' = dict_get d k'.
Proof.
  intros Hne. induction d as [|[k0 v0] r IH]; simpl.
  - destruct (String.eqb k k') eqn:E; [|reflexivity].
    apply String.eqb_eq in E. congruence.
  - destruct (String.eqb k0 k) eqn:E; simpl.
    + apply String.eqb_eq in E. subst k0.
      destruct (String.eqb k k') eqn:E'; [|reflexivity].
      apply String.eqb_eq in E'. congruence.
    + now rewrite IH.
Qed.

Lemma dict_update_get_absent (kwargs d : dict) (k : string) :
  ~ In k (keys kwargs) -> dict_get (dict_update d kwargs) k = dict_get d k.
Proof.
  revert d. induction kwargs as [|[k' v'] r IH]; intros d Hk.
  - reflexivity.
  - change (dict_update d ((k', v') :: r))
      with (dict_update (dict_set d k' v') r).
    simpl in Hk. rewrite IH by tauto.
    apply dict_set_get_other. intros ->. tauto.
Qed.

Lemma dict_update_get (kwargs d : dict) (k v : string) :
  NoDup (keys kwargs) -> In (k, v) kwargs ->
  dict_get (dict_update d kwargs) k = Some v.
Proof.
  revert d. induction kwargs as [|[k' v'] r IH]; intros d Hnd Hin.
  - destruct Hin.
  - simpl in Hnd. inversion Hnd as [|x l Hx Hr]; subst.
    destruct Hin as [[= -> ->]|Hin].
    + change (dict_update d ((k, v) :: r))
        with (dict_update (dict_set d k v) r).
      rewrite dict_update_get_absent by assumption.
      apply dict_set_get_same.
    + change (dict_update d ((k', v') :: r))
        with (dict_update (dict_set d k' v') r).
      now apply IH.
Qed.

Lemma dict_set_keys (d : dict) (k v x : string) :
  In x (keys (dict_set d k v)) <-> In x (keys d) \/ x = k.
Proof.
  induction d as [|[k' v'] r IH]; simpl.
  - intuition.
  - destruct (String.eqb k' k) eqn:E; simpl.
    + apply String.eqb_eq in E. subst. intuition.
    + rewrite IH. intuition.
Qed.

Lemma dict_set_NoDup (d : dict) (k v : string) :
  NoDup (keys d) -> NoDup (keys (dict_set d k v)).
Proof.
  induction d as [|[k' v'] r IH]; simpl; intros Hnd.
  - constructor; [tauto | constructor].
  - inversion Hnd as [|x l Hx Hr]; subst.
    destruct (String.eqb k' k) eqn:E; simpl.
    + now constructor.
    + constructor; [|now apply IH].
      rewrite dict_set_keys. intros [H| ->]; [tauto|].
      rewrite String.eqb_refl in E. discriminate.
Qed.

Lemma dict_update_NoDup (kwargs d : dict) :
  NoDup (keys d) -> NoDup (keys (dict_update d kwargs)).
Proof.
  revert d. induction kwargs as [|[k v] r IH]; intros d Hnd.
  - assumption.
  - change (dict_update d ((k, v) :: r))
      with (dict_update (dict_set d k v) r).
    apply IH. now apply dict_set_NoDup.
Qed.

Lemma dict_get_In (d : dict) (k v : string) :
  dict_get d k = Some v -> In (k, v) d.
Proof.
  induction d as [|[k' v'] r IH]; simpl; [discriminate|].
  destruct (String.eqb k' k) eqn:E.
  - apply String.eqb_eq in E. intros [= ->]. subst. now left.
  - intros H. right. now apply IH.
Qed.

Lemma NoDup_keys_unique (d : dict) (k v v' : string) :
  NoDup (keys d) -> In (k, v) d -> In (k, v') d -> v' = v.
Proof.
  induction d as [|[k0 v0] r IH]; simpl; intros Hnd H1 H2; [tauto|].
  inversion Hnd as [|x l Hx Hr]; subst.
  assert (Hk : forall w, In (k0, w) r -> False).
  { intros w Hw. apply Hx. change k0 with (fst (k0, w)). now apply in_map. }
  destruct H1 as [E1|H1], H2 as [E2|H2].
  - congruence.
  - exfalso. injection E1 as -> _. eapply Hk; eassumption.
  - exfalso. injection E2 as -> _. eapply Hk; eassumption.
  - now apply IH.
Qed.

Lemma concat_In (sep y : string) (l : list string) :
  In y l -> exists a b, String.concat sep l = (a ++ y ++ b)%string.
Proof.
  induction l as [|x r IH]; [intros []|].
  intros [->|Hin].
  - destruct r as [|x' r'].
    + exists EmptyString, EmptyString. simpl.
      clear. induction y as [|c y IHy]; simpl; [reflexivity|].
      now rewrite <- IHy.
    + exists EmptyString, (sep ++ String.concat sep (x' :: r'))%string.
      reflexivity.
  - destruct (IH Hin) as [a [b Hab]]. destruct r as [|x' r']; [destruct Hin|].
    exists (x ++ sep ++ a)%string, b.
    change (String.concat sep (x :: x' :: r'))
      with (x ++ sep ++ String.concat sep (x' :: r'))%string.
    rewrite Hab. clear.
    induction x as [|c x IHx]; simpl.
    + induction sep as [|c sep IHs]; simpl; [reflexivity|].
      now rewrite IHs.
    + now rewrite IHx.
Qed.

Lemma append_assoc (a b c : string) :
  ((a ++ b) ++ c = a ++ b ++ c)%string.
Proof. induction a as [|x a IH]; simpl; [reflexivity | now rewrite IH]. Qed.

(** *** The tag generator gives the markup *)

Lemma quoted_append (s t : string) :
  (Html.quoted s ++ t = Str.dquote ++ s ++ Str.dquote ++ t)%string.
Proof. unfold Html.quoted. now rewrite !append_assoc. Qed.

Lemma attrs_str_html (attrs : dict) :
  Tag.attrs_str attrs = Html.attributes attrs.
Proof.
  unfold Tag.attrs_str, Str.join.
  induction attrs as [|kv r IH]; [reflexivity|].
  destruct r as [|kv' r']; [reflexivity|].
  change (String.concat " " (map Tag.attr (kv :: kv' :: r')))
    with (Tag.attr kv ++ " "
            ++ String.concat " " (map Tag.attr (kv' :: r')))%string.
  rewrite IH. reflexivity.
Qed.

Lemma script_tag_html (src : string) (attrs : dict) :
  Tag._generate_script_tag src attrs = Html.script src attrs.
Proof.
  unfold Tag._generate_script_tag, Html.script.
  now rewrite attrs_str_html, quoted_append.
Qed.

Lemma stylesheet_tag_html (href : string) :
  Tag._generate_stylesheet_tag href = Html.stylesheet href.
Proof.
  unfold Tag._generate_stylesheet_tag, Html.stylesheet.
  now rewrite !quoted_append.
Qed.

Lemma stylesheet_preload_tag_html (href : string) :
  Tag._generate_stylesheet_preload_tag href = Html.preload_style href.
Proof.
  unfold Tag._generate_stylesheet_preload_tag, Html.preload_style.
  now rewrite !quoted_append.
Qed.

Lemma preload_tag_html (href : string) :
  Tag._generate_preload_tag href preload_attrs = Html.modulepreload href.
Proof.
  unfold Tag._generate_preload_tag, Html.modulepreload.
  now rewrite !quoted_append.
Qed.

(** The text of an attribute of the dictionary is in the script
    element. *)
Lemma html_script_contains (src : string) (attrs : dict) (k v : string) :
  In (k, v) attrs ->
  Str.contains (k ++ "=" ++ Str.dquote ++ v ++ Str.dquote)
    (Html.script src attrs) = true.
Proof.
  intros Hin. rewrite <- script_tag_html.
  change (k ++ "=" ++ Str.dquote ++ v ++ Str.dquote)%string
    with (Tag.attr (k, v)).
  apply contains_spec.
  assert (H : In (Tag.attr (k, v)) (map Tag.attr attrs)) by now apply in_map.
  destruct (concat_In " " (Tag.attr (k, v)) (map Tag.attr attrs) H)
    as [a [b Hab]].
  unfold Tag._generate_script_tag, Tag.attrs_str, Str.join. rewrite Hab.
  exists ("<script " ++ a)%string.
  eexists. rewrite !append_assoc. reflexivity.
Qed.

(** [{**defaults, **kwargs}] holds every item of [kwargs], and nothing
    else under the key of one. *)
Lemma dict_update_only_value (defaults kwargs : dict) (k v : string) :
  NoDup (keys defaults) -> NoDup (keys kwargs) -> In (k, v) kwargs ->
  only_value (dict_update defaults kwargs) k v.
Proof.
  intros Hd Hk Hin.
  assert (Hget := dict_update_get kwargs defaults k v Hk Hin).
  apply dict_get_In in Hget. split; [assumption|].
  intros v' Hv'.
  apply (NoDup_keys_unique (dict_update defaults kwargs) k v v');
    [now apply dict_update_NoDup | assumption | assumption].
Qed.

(** The first default stays the first attribute. *)
Lemma dict_update_head (kwargs : dict) :
  forall k0 v0 d,
    exists v' rest, dict_update ((k0, v0) :: d) kwargs = (k0, v') :: rest.
Proof.
  induction kwargs as [|[k v] r IH]; intros k0 v0 d.
  - now exists v0, d.
  - change (dict_update ((k0, v0) :: d) ((k, v) :: r))
      with (dict_update (dict_set ((k0, v0) :: d) k v) r).
    simpl. destruct (String.eqb k0 k); apply IH.
Qed.

Lemma nomodule_script_startswith (src : string) (attrs : dict) :
  (exists v rest, attrs = ("nomodule", v) :: rest) ->
  Str.startswith ("<script nomodule=" ++ Str.dquote)
    (Html.script src attrs) = true.
Proof. intros [v [rest ->]]. destruct rest; reflexivity. Qed.

(** ** The resolver *)

Section Resolver.

Variable urljoin : string -> string -> string.
Variable settings : Settings.

Lemma not_in_manifest_present (m : Manifest) (path : string)
  (e : ManifestEntry) :
  lookup m path = Some e -> not_in_manifest (loaded m) path = false.
Proof.
  unfold not_in_manifest, has_key. simpl.
  destruct m as [|p r]; [discriminate|].
  intros ->. reflexivity.
Qed.

Lemma not_in_manifest_absent (m : Manifest) (path : string) :
  lookup m path = None -> not_in_manifest (loaded m) path = true.
Proof.
  unfold not_in_manifest, has_key. simpl.
  destruct m as [|p r]; [reflexivity|].
  intros ->. reflexivity.
Qed.

Lemma getitem_loaded (m : Manifest) (path : string) (e : ManifestEntry) :
  lookup m path = Some e -> getitem (loaded m) path = Ok e.
Proof. unfold getitem. simpl. now intros ->. Qed.

(** The preload link of a dependency's file. *)
Let preload (dep_file : string) : string :=
  Html.modulepreload
    (urljoin (DJANGO_VITE_STATIC_URL urljoin settings) dep_file).

Lemma preload_imports_files (m : Manifest) (deps files : list string) :
  import_files m deps files ->
  forall tags,
    preload_imports urljoin settings (loaded m) deps tags =
    Ok (tags ++ map preload files).
Proof.
  induction 1 as [|dep f deps files [e [El Ef]] _ IH]; intros tags; simpl.
  - now rewrite app_nil_r.
  - rewrite (getitem_loaded m dep e El). simpl.
    unfold entry_file. rewrite Ef. simpl.
    rewrite IH, <- app_assoc, preload_tag_html. reflexivity.
Qed.

Lemma preload_imports_extends (self : DjangoViteAssetLoader)
  (deps : list string) :
  forall tags out,
    preload_imports urljoin settings self deps tags = Ok out ->
    exists added,
      out = tags ++ added /\
      Forall (fun t => is_script_tag t = false) added.
Proof.
  induction deps as [|dep rest IH]; intros tags out; simpl.
  - intros [= <-]. exists []. now rewrite app_nil_r.
  - destruct (getitem self dep) as [e| |]; simpl; try discriminate.
    destruct (entry_file e) as [f| |]; simpl; try discriminate.
    intros H. apply IH in H. destruct H as [added [-> Hall]].
    rewrite <- app_assoc. eexists. split; [reflexivity|].
    constructor; [reflexivity | assumption].
Qed.

(** The tags of a walk are stylesheet links. *)
Lemma load_css_files_links (fuel : nat) (self : DjangoViteAssetLoader)
  (path : string) (tags ap : list string) :
  _load_css_files_of_asset urljoin settings fuel self path [] =
  Ok (tags, ap) ->
  Forall (fun t => is_script_tag t = false) tags.
Proof.
  unfold _load_css_files_of_asset. destruct self as [[m|]].
  - intros H.
    destruct (walk_sound urljoin settings Tag._generate_stylesheet_tag m
                fuel path [] tags ap H) as [l [_ [-> _]]].
    apply Forall_forall. intros t Ht. apply in_map_iff in Ht.
    destruct Ht as [c [<- _]]. reflexivity.
  - destruct fuel; discriminate.
Qed.

(** What [generate_vite_asset] returns in production is the joined
    list of some links, the script element of the entry's file with the
    merged attributes, and some more links. *)
Lemma generate_vite_asset_shape (fuel : nat) (self : DjangoViteAssetLoader)
  (path : string) (kwargs : dict) (out : string) :
  DJANGO_VITE_DEV_MODE settings = false ->
  generate_vite_asset urljoin settings fuel self path kwargs = Ok out ->
  exists e f css_tags preload_tags,
    not_in_manifest self path = false /\
    getitem self path = Ok e /\ file e = Some f /\
    Forall (fun t => is_script_tag t = false) css_tags /\
    Forall (fun t => is_script_tag t = false) preload_tags /\
    out =
    Str.join Str.lf
      (css_tags
         ++ [Html.script
               (_generate_production_server_url urljoin settings f)
               (dict_update
                  [("type", "module"); ("crossorigin", Str.empty)] kwargs)]
         ++ preload_tags).
Proof.
  intros Hdev. unfold generate_vite_asset. rewrite Hdev.
  destruct (not_in_manifest self path); [discriminate|].
  destruct (getitem self path) as [e| |]; simpl; try discriminate.
  destruct (_load_css_files_of_asset urljoin settings fuel self path [])
    as [[css_tags ap]| |] eqn:Ecss; simpl; try discriminate.
  unfold entry_file. destruct (file e) as [f|] eqn:Ef; simpl;
    try discriminate.
  destruct (preload_imports urljoin settings self (get_imports e) _)
    as [tags| |] eqn:Ep; simpl; try discriminate.
  intros [= <-].
  apply preload_imports_extends in Ep. destruct Ep as [added [-> Hadded]].
  exists e, f, css_tags, added. rewrite <- app_assoc, script_tag_html.
  repeat split; try assumption.
  exact (load_css_files_links fuel self path css_tags ap Ecss).
Qed.

Lemma generate_vite_asset_returns (fuel : nat) (m : Manifest)
  (path : string) (e : ManifestEntry) (f : string)
  (files l : list string) (kwargs : dict) :
  DJANGO_VITE_DEV_MODE settings = false ->
  lookup m path = Some e -> file e = Some f ->
  import_files m (get_imports e) files ->
  _generate_css_files_of_asset urljoin settings fuel (loaded m) path []
    Tag._generate_stylesheet_tag =
  Ok (map (fun css_path =>
             Tag._generate_stylesheet_tag
               (_generate_production_server_url urljoin settings css_path))
        (first_occurrences l), l) ->
  generate_vite_asset urljoin settings fuel (loaded m) path kwargs =
  Ok (Str.join Str.lf
        (map (fun css_path =>
                Html.stylesheet
                  (_generate_production_server_url urljoin settings
                     css_path))
           (first_occurrences l)
           ++ [Html.script
                 (_generate_production_server_url urljoin settings f)
                 (dict_update
                    [("type", "module"); ("crossorigin", Str.empty)]
                    kwargs)]
           ++ map preload files)).
Proof.
  intros Hdev El Ef Hfiles Hcss.
  unfold generate_vite_asset. rewrite Hdev.
  rewrite (not_in_manifest_present m path e El).
  rewrite (getitem_loaded m path e El). simpl.
  unfold _load_css_files_of_asset. rewrite Hcss. simpl.
  unfold entry_file. rewrite Ef. simpl.
  rewrite (preload_imports_files m (get_imports e) files Hfiles). simpl.
  rewrite <- app_assoc, script_tag_html. do 3 f_equal.
  apply map_ext. intros c. apply stylesheet_tag_html.
Qed.

(** The markup of an asset on a manifest that is acyclic and has the
    keys and files the entry refers to. *)
Lemma generate_vite_asset_markup (m : Manifest) (path : string)
  (e : ManifestEntry) (f : string) (files : list string) (kwargs : dict) :
  DJANGO_VITE_DEV_MODE settings = false ->
  acyclic m ->
  resolvable m path ->
  lookup m path = Some e ->
  file e = Some f ->
  import_files m (get_imports e) files ->
  exists l,
    css_closure m path l /\
    forall fuel, length m < fuel ->
      generate_vite_asset urljoin settings fuel (loaded m) path kwargs =
      Ok (Str.join Str.lf
            (map (fun css_path =>
                    Html.stylesheet
                      (_generate_production_server_url urljoin settings
                         css_path))
               (first_occurrences l)
               ++ [Html.script
                     (_generate_production_server_url urljoin settings f)
                     (dict_update
                        [("type", "module"); ("crossorigin", Str.empty)]
                        kwargs)]
               ++ map preload files)).
Proof.
  intros Hdev Hacyc Hres El Ef Hfiles.
  destruct (walk_returns urljoin settings Tag._generate_stylesheet_tag m
              (S (length m)) path [] Hacyc Hres (Nat.lt_succ_diag_r _))
    as [l [Hl _]].
  exists l. split; [assumption|].
  intros fuel Hfuel.
  destruct (walk_returns urljoin settings Tag._generate_stylesheet_tag m
              fuel path [] Hacyc Hres Hfuel) as [l' [Hl' E]].
  rewrite <- (css_closure_fun m path l Hl l' Hl') in E. simpl in E.
  now apply (generate_vite_asset_returns fuel m path e f files l kwargs).
Qed.

End Resolver.



(** ** Errors of the operations *)

(** C3. For an entry path that the loaded manifest does not have, each
    production operation that takes an entry path raises the error of an
    unknown asset, and so returns no markup. *)
Theorem unknown_asset_raises
  (urljoin : string -> string -> string) (settings : Settings)
  (open_read : string -> string + string)
  (json_loads : string -> Manifest + string)
  (fuel : nat) (m : Manifest) (path : string) (kwargs : dict)
  (w w' : World) :
  DJANGO_VITE_DEV_MODE settings = false ->
  instance settings open_read json_loads w = (Ok (loaded m), w') ->
  lookup m path = None ->
  call urljoin settings open_read json_loads fuel
    (ViteAsset path kwargs) w = (Exception (cannot_find settings path), w')
  /\ call urljoin settings open_read json_loads fuel
       (VitePreloadAsset path) w = (Exception (cannot_find settings path), w')
  /\ call urljoin settings open_read json_loads fuel
       (ViteAssetUrl path) w = (Exception (cannot_find settings path), w')
  /\ call urljoin settings open_read json_loads fuel
       (ViteLegacyAsset path kwargs) w =
     (Exception (cannot_find settings path), w').
Proof.
  intros Hdev Hinst Habs.
  assert (Hnot := not_in_manifest_absent m path Habs).
  repeat split; simpl;
    unfold vite_asset, vite_preload_asset, vite_asset_url,
      vite_legacy_asset, on_instance; rewrite Hinst;
    unfold generate_vite_asset, preload_vite_asset,
      generate_vite_asset_url, generate_vite_legacy_asset;
    rewrite Hdev, Hnot; reflexivity.
Qed.

Lemma unknown_asset_raises_sample :
  let open_read :=
    Sample.disk [("/srv/static/manifest.json", Sample.one_entry_text)] in
  let json_loads := Sample.parser Sample.documents in
  let w' := {| cls_instance := Some (loaded Sample.one_entry);
               opened := ["/srv/static/manifest.json"] |} in
  call urllib_parse.urljoin Sample.production open_read json_loads 4
    (ViteAsset "src/missing.js" []) Sample.fresh =
  (Exception
     (RuntimeError
        "Cannot find src/missing.js in Vite manifest at /srv/static/manifest.json"),
   w').
Proof.
  intros open_read json_loads w'.
  apply (unknown_asset_raises urllib_parse.urljoin Sample.production
           open_read json_loads 4 Sample.one_entry "src/missing.js" []
           Sample.fresh w');
    reflexivity.
Defined.

(** C10. When the manifest that was loaded is the empty mapping, each
    production operation that takes an entry path raises the error of an
    unknown asset for every path: the guard finds the empty manifest
    false before it looks the path up. *)
Theorem empty_manifest_raises
  (urljoin : string -> string -> string) (settings : Settings)
  (open_read : string -> string + string)
  (json_loads : string -> Manifest + string)
  (fuel : nat) (w w' : World) :
  DJANGO_VITE_DEV_MODE settings = false ->
  instance settings open_read json_loads w = (Ok (loaded []), w') ->
  forall path kwargs,
    call urljoin settings open_read json_loads fuel
      (ViteAsset path kwargs) w = (Exception (cannot_find settings path), w')
    /\ call urljoin settings open_read json_loads fuel
         (VitePreloadAsset path) w =
       (Exception (cannot_find settings path), w')
    /\ call urljoin settings open_read json_loads fuel
         (ViteAssetUrl path) w = (Exception (cannot_find settings path), w')
    /\ call urljoin settings open_read json_loads fuel
         (ViteLegacyAsset path kwargs) w =
       (Exception (cannot_find settings path), w').
Proof.
  intros Hdev Hinst path kwargs.
  repeat split; simpl;
    unfold vite_asset, vite_preload_asset, vite_asset_url,
      vite_legacy_asset, on_instance; rewrite Hinst;
    unfold generate_vite_asset, preload_vite_asset,
      generate_vite_asset_url, generate_vite_legacy_asset;
    rewrite Hdev; reflexivity.
Qed.

Lemma empty_manifest_raises_sample :
  let open_read :=
    Sample.disk [("/srv/static/manifest.json", Sample.empty_text)] in
  let json_loads := Sample.parser Sample.documents in
  let w' := {| cls_instance := Some (loaded []);
               opened := ["/srv/static/manifest.json"] |} in
  instance Sample.production open_read json_loads Sample.fresh =
  (Ok (loaded []), w') /\
  forall path,
    call urllib_parse.urljoin Sample.production open_read json_loads 4
      (ViteAssetUrl path) Sample.fresh =
    (Exception (cannot_find Sample.production path), w').
Proof.
  intros open_read json_loads w'.
  split; [reflexivity|]. intros path.
  apply (empty_manifest_raises urllib_parse.urljoin Sample.production
           open_read json_loads 4 Sample.fresh w' eq_refl eq_refl path []).
Defined.

(** In development [instance()] opens nothing and leaves the loader
    without a manifest. *)
Lemma instance_development (settings : Settings)
  (open_read : string -> string + string)
  (json_loads : string -> Manifest + string) (w : World) :
  DJANGO_VITE_DEV_MODE settings = true ->
  exists self w',
    instance settings open_read json_loads w = (Ok self, w') /\
    opened w' = opened w /\
    (cls_instance w = None ->
     cls_instance w' = Some {| _manifest := None |}).
Proof.
  intros Hdev. unfold instance.
  destruct (cls_instance w) as [self|] eqn:E.
  - exists self, w. repeat split. discriminate.
  - rewrite Hdev. eexists; eexists. repeat split.
Qed.

(** C4. In development no operation of the resolver opens the manifest
    file and none raises: each returns its markup, whatever the file
    system holds and whatever the parser would say, and a loader created
    on the way has no manifest. *)
Theorem development_never_reads_manifest
  (urljoin : string -> string -> string) (settings : Settings)
  (open_read : string -> string + string)
  (json_loads : string -> Manifest + string)
  (fuel : nat) (op : Operation) (w : World) :
  DJANGO_VITE_DEV_MODE settings = true ->
  exists markup w',
    call urljoin settings open_read json_loads fuel op w = (Ok markup, w') /\
    opened w' = opened w /\
    (cls_instance w = None ->
     forall self, cls_instance w' = Some self -> _manifest self = None).
Proof.
  intros Hdev.
  destruct (instance_development settings open_read json_loads w Hdev)
    as [self [w' [Hinst [Hop Hcls]]]].
  assert (Hnone : cls_instance w = None ->
                  forall s, cls_instance w' = Some s -> _manifest s = None).
  { intros Hw s Hs. rewrite (Hcls Hw) in Hs. now injection Hs as <-. }
  destruct op; simpl;
    unfold vite_hmr_client, vite_asset, vite_preload_asset, vite_asset_url,
      vite_legacy_polyfills, vite_legacy_asset, vite_react_refresh,
      on_instance;
    try rewrite Hinst;
    unfold generate_vite_asset, preload_vite_asset,
      generate_vite_asset_url, generate_vite_legacy_polyfills,
      generate_vite_legacy_asset;
    try rewrite Hdev;
    eexists; eexists; (split; [reflexivity|]);
    (split; [first [exact Hop | reflexivity]|]);
    first [exact Hnone | intros Hw s Hs; simpl in Hs; congruence].
Qed.

Lemma development_never_reads_manifest_sample :
  DJANGO_VITE_DEV_MODE Sample.development = true /\
  exists markup w',
    call urllib_parse.urljoin Sample.development Sample.no_file
      Sample.no_json 4 (ViteAsset "src/main.js" []) Sample.fresh =
    (Ok markup, w') /\
    opened w' = opened Sample.fresh /\
    (cls_instance Sample.fresh = None ->
     forall self, cls_instance w' = Some self -> _manifest self = None).
Proof.
  split; [reflexivity|].
  apply (development_never_reads_manifest urllib_parse.urljoin
           Sample.development Sample.no_file Sample.no_json 4
           (ViteAsset "src/main.js" []) Sample.fresh eq_refl).
Defined.

(** ** The legacy polyfills *)

Section Polyfills.

Variable urljoin : string -> string -> string.
Variable settings : Settings.

Let motif := DJANGO_VITE_LEGACY_POLYFILLS_MOTIF settings.



Lemma find_polyfills_first (before after : Manifest) (k : string)
  (e : ManifestEntry) (attrs : dict) :
  (forall k', In k' (keys before) -> Str.contains motif k' = false) ->
  Str.contains motif k = true ->
  find_polyfills urljoin settings (before ++ (k, e) :: after) attrs =
  match file e with
  | Some f =>
      Ok (Html.script
            (_generate_production_server_url urljoin settings f) attrs)
  | None => Exception (KeyError "file")
  end.
Proof.
  intros Hbefore Hk.
  induction before as [|[k' e'] r IH]; simpl.
  - fold motif. rewrite Hk. unfold entry_file.
    destruct (file e); simpl; [now rewrite script_tag_html | reflexivity].
  - fold motif. rewrite (Hbefore k' (or_introl eq_refl)).
    apply IH. intros k0 H0. apply Hbefore. now right.
Qed.

End Polyfills.



(** ** Attributes of the script tag *)

(** C7. An attribute the caller supplies takes the place of the default
    of the same name in the rendered script element: the element is the
    text of the defaults updated with the caller's attributes, among
    which the only attribute of the caller's name has the caller's
    value, and the text shows the name with that value.  So for the
    asset and the HMR client in development, and in production for the
    asset, the legacy asset and the legacy polyfills. *)
Theorem extra_attrs_override
  (urljoin : string -> string -> string) (settings : Settings)
  (kwargs : dict) (k v : string) :
  NoDup (keys kwargs) ->
  In (k, v) kwargs ->
  (only_value (dict_update [("type", "module")] kwargs) k v /\
   only_value
     (dict_update [("type", "module"); ("crossorigin", Str.empty)] kwargs)
     k v /\
   only_value
     (dict_update [("nomodule", Str.empty); ("crossorigin", Str.empty)]
        kwargs) k v) /\
  (DJANGO_VITE_DEV_MODE settings = true ->
   forall fuel self path,
     generate_vite_asset urljoin settings fuel self path kwargs =
     Ok (Html.script (_generate_vite_server_url urljoin settings path)
           (dict_update [("type", "module")] kwargs)) /\
     Str.contains (k ++ "=" ++ Str.dquote ++ v ++ Str.dquote)
       (Html.script (_generate_vite_server_url urljoin settings path)
          (dict_update [("type", "module")] kwargs)) = true /\
     generate_vite_ws_client urljoin settings kwargs =
     Html.script
       (_generate_vite_server_url urljoin settings
          (DJANGO_VITE_WS_CLIENT_URL settings))
       (dict_update [("type", "module")] kwargs) /\
     Str.contains (k ++ "=" ++ Str.dquote ++ v ++ Str.dquote)
       (generate_vite_ws_client urljoin settings kwargs) = true) /\
  (DJANGO_VITE_DEV_MODE settings = false ->
   (forall m path e f files,
      acyclic m ->
      resolvable m path ->
      lookup m path = Some e ->
      file e = Some f ->
      import_files m (get_imports e) files ->
      Str.contains (k ++ "=" ++ Str.dquote ++ v ++ Str.dquote)
        (Html.script
           (_generate_production_server_url urljoin settings f)
           (dict_update [("type", "module"); ("crossorigin", Str.empty)]
              kwargs)) = true /\
      exists l,
        css_closure m path l /\
        forall fuel, length m < fuel ->
          generate_vite_asset urljoin settings fuel (loaded m) path kwargs =
          Ok (Str.join Str.lf
                (map (fun css_path =>
                        Html.stylesheet
                          (_generate_production_server_url urljoin settings
                             css_path))
                   (first_occurrences l)
                   ++ [Html.script
                         (_generate_production_server_url urljoin settings
                            f)
                         (dict_update
                            [("type", "module");
                             ("crossorigin", Str.empty)] kwargs)]
                   ++ map (fun dep_file =>
                             Html.modulepreload
                               (urljoin
                                  (DJANGO_VITE_STATIC_URL urljoin settings)
                                  dep_file))
                        files))) /\
   (forall m path e f,
      lookup m path = Some e ->
      file e = Some f ->
      generate_vite_legacy_asset urljoin settings (loaded m) path kwargs =
      Ok (Html.script
            (_generate_production_server_url urljoin settings f)
            (dict_update
               [("nomodule", Str.empty); ("crossorigin", Str.empty)]
               kwargs)) /\
      Str.contains (k ++ "=" ++ Str.dquote ++ v ++ Str.dquote)
        (Html.script
           (_generate_production_server_url urljoin settings f)
           (dict_update
              [("nomodule", Str.empty); ("crossorigin", Str.empty)]
              kwargs)) = true) /\
   (forall before k0 e f after,
      (forall k', In k' (keys before) ->
         Str.contains (DJANGO_VITE_LEGACY_POLYFILLS_MOTIF settings) k'
         = false) ->
      Str.contains (DJANGO_VITE_LEGACY_POLYFILLS_MOTIF settings) k0 = true ->
      file e = Some f ->
      generate_vite_legacy_polyfills urljoin settings
        (loaded (before ++ (k0, e) :: after)) kwargs =
      Ok (Html.script
            (_generate_production_server_url urljoin settings f)
            (dict_update
               [("nomodule", Str.empty); ("crossorigin", Str.empty)]
               kwargs)) /\
      Str.contains (k ++ "=" ++ Str.dquote ++ v ++ Str.dquote)
        (Html.script
           (_generate_production_server_url urljoin settings f)
           (dict_update
              [("nomodule", Str.empty); ("crossorigin", Str.empty)]
              kwargs)) = true)).
Proof.
  intros Hnd Hin.
  assert (Hk1 : NoDup (keys [("type", "module")])).
  { repeat constructor. simpl. tauto. }
  assert (Hk2 : NoDup (keys [("type", "module");
                             ("crossorigin", Str.empty)])).
  { repeat constructor; simpl; intuition discriminate. }
  assert (Hk3 : NoDup (keys [("nomodule", Str.empty);
                             ("crossorigin", Str.empty)])).
  { repeat constructor; simpl; intuition discriminate. }
  assert (H1 := dict_update_only_value _ kwargs k v Hk1 Hnd Hin).
  assert (H2 := dict_update_only_value _ kwargs k v Hk2 Hnd Hin).
  assert (H3 := dict_update_only_value _ kwargs k v Hk3 Hnd Hin).
  split; [exact (conj H1 (conj H2 H3))|]. split.
  - intros Hdev fuel self path.
    assert (Hws : generate_vite_ws_client urljoin settings kwargs =
                  Html.script
                    (_generate_vite_server_url urljoin settings
                       (DJANGO_VITE_WS_CLIENT_URL settings))
                    (dict_update [("type", "module")] kwargs)).
    { unfold generate_vite_ws_client. rewrite Hdev.
      now rewrite script_tag_html. }
    split; [|split; [|split]].
    + unfold generate_vite_asset. rewrite Hdev.
      now rewrite script_tag_html.
    + apply html_script_contains. apply H1.
    + exact Hws.
    + rewrite Hws. apply html_script_contains. apply H1.
  - intros Hdev. split; [|split].
    + intros m path e f files Hacyc Hres El Ef Hfiles. split.
      * apply html_script_contains. apply H2.
      * exact (generate_vite_asset_markup urljoin settings m path e f files
                 kwargs Hdev Hacyc Hres El Ef Hfiles).
    + intros m path e f El Ef. split.
      * unfold generate_vite_legacy_asset.
        rewrite Hdev, (not_in_manifest_present m path e El),
          (getitem_loaded m path e El).
        simpl. unfold entry_file. rewrite Ef. simpl.
        now rewrite script_tag_html.
      * apply html_script_contains. apply H3.
    + intros before k0 e f after Hbefore Hk0 Ef. split.
      * unfold generate_vite_legacy_polyfills. rewrite Hdev. simpl.
        rewrite (find_polyfills_first urljoin settings before after k0 e _
                   Hbefore Hk0).
        now rewrite Ef.
      * apply html_script_contains. apply H3.
Qed.

Lemma extra_attrs_override_sample :
  let kwargs := [("type", "text/babel"); ("defer", Str.empty)] in
  NoDup (keys kwargs) /\
  In ("type", "text/babel") kwargs /\
  generate_vite_asset urllib_parse.urljoin Sample.development 0
    {| _manifest := None |} "src/main.js" kwargs =
  Ok 
     ("<script type=" ++ Str.dquote ++ "text/babel" ++ Str.dquote ++ " defer=" ++ Str.dquote ++ Str.dquote ++ " src=" ++ Str.dquote ++ "http://localhost:3000/static/src/main.js" ++ Str.dquote ++ "></script>")%string /\
  Str.contains ("type=" ++ Str.dquote ++ "text/babel" ++ Str.dquote)%string
    ("<script type=" ++ Str.dquote ++ "text/babel" ++ Str.dquote ++ " defer=" ++ Str.dquote ++ Str.dquote ++ " src=" ++ Str.dquote ++ "http://localhost:3000/static/src/main.js" ++ Str.dquote ++ "></script>")%string
  = true /\
  generate_vite_legacy_asset urllib_parse.urljoin Sample.production
    (loaded Sample.one_entry) "src/main.js" [("nomodule", "nomodule")] =
  Ok
    ("<script nomodule=" ++ Str.dquote ++ "nomodule" ++ Str.dquote ++ " crossorigin=" ++ Str.dquote ++ Str.dquote ++ " src=" ++ Str.dquote ++ "/assets/main.4f2a.js" ++ Str.dquote ++ "></script>")%string.
Proof.
  intros kwargs.
  assert (Hnd : NoDup (keys kwargs)).
  { repeat constructor; simpl; intuition discriminate. }
  assert (Hin : In ("type", "text/babel") kwargs) by now left.
  split; [exact Hnd|]. split; [exact Hin|].
  destruct (extra_attrs_override urllib_parse.urljoin Sample.development
              kwargs "type" "text/babel" Hnd Hin) as [_ [Hdev _]].
  destruct (Hdev eq_refl 0 {| _manifest := None |} "src/main.js")
    as [Hasset [Hshown _]].
  split; [rewrite Hasset; reflexivity|].
  split; [exact Hshown|].
  assert (Hnd' : NoDup (keys [("nomodule", "nomodule")])).
  { repeat constructor. simpl. tauto. }
  destruct (extra_attrs_override urllib_parse.urljoin Sample.production
              [("nomodule", "nomodule")] "nomodule" "nomodule" Hnd'
              (or_introl eq_refl)) as [_ [_ Hprod]].
  destruct (Hprod eq_refl) as [_ [Hlegacy _]].
  destruct (Hlegacy Sample.one_entry "src/main.js"
              {| file := Some "assets/main.4f2a.js"; imports := None;
                 css := None |}
              "assets/main.4f2a.js" eq_refl eq_refl) as [Hout _].
  rewrite Hout. reflexivity.
Defined.

(** ** URLs *)

(** C5. With static files served by a storage, the stylesheet and the
    script of [generate_vite_asset] carry the URL the storage gives,
    while the modulepreload link of an import carries the import's file
    joined to the static URL, which the storage never saw. *)
Theorem preload_url_bypasses_storage :
  generate_vite_asset urllib_parse.urljoin Sample.production_cdn 4
    (loaded Sample.with_polyfills) "src/main.js" [] =
  Ok (Str.join Str.lf
        [Tag._generate_stylesheet_tag
           "https://cdn.example.com/assets/main.91c0.css";
         Tag._generate_script_tag
           "https://cdn.example.com/assets/main.4f2a.js"
           [("type", "module"); ("crossorigin", Str.empty)];
         Tag._generate_preload_tag "/static/assets/vendor.77b1.js"
           preload_attrs])
  /\ _generate_production_server_url urllib_parse.urljoin
       Sample.production_cdn "assets/vendor.77b1.js" =
     "https://cdn.example.com/assets/vendor.77b1.js"
  /\ preload_vite_asset urllib_parse.urljoin Sample.production_cdn 4
       (loaded Sample.with_polyfills) "src/main.js" =
     Ok (Str.join Str.lf
           [Tag._generate_preload_tag "/static/assets/main.4f2a.js"
              preload_attrs;
            Tag._generate_stylesheet_preload_tag
              "https://cdn.example.com/assets/main.91c0.css";
            Tag._generate_preload_tag "/static/assets/vendor.77b1.js"
              preload_attrs]).
Proof. repeat split; vm_compute; reflexivity. Qed.




(** * Further properties of the module *)

(** ** Static URL and prefix *)

Lemma endswith_slash_append (u : string) :
  Str.endswith "/" (u ++ "/") = true.
Proof.
  unfold Str.endswith.
  assert (Hlen : String.length (u ++ "/") = S (String.length u)).
  { induction u as [|c u IH]; simpl; [reflexivity | now rewrite IH]. }
  rewrite Hlen. simpl. rewrite Nat.sub_0_r. clear Hlen.
  induction u as [|c u IH]; simpl; [reflexivity | exact IH].
Qed.

(** X1. When the module imports, the static URL it computes ends with a
    slash, whatever the settings and whatever the join gives. *)
Theorem static_url_ends_with_slash
  (urljoin : string -> string -> string) (settings : Settings) :
  module_imports urljoin settings = true ->
  Str.endswith "/" (DJANGO_VITE_STATIC_URL urljoin settings) = true.
Proof.
  intros _. unfold DJANGO_VITE_STATIC_URL.
  destruct (Str.endswith "/"
              (urljoin (STATIC_URL settings)
                 (DJANGO_VITE_STATIC_URL_PREFIX settings))) eqn:E.
  - exact E.
  - apply endswith_slash_append.
Qed.

Lemma static_url_ends_with_slash_sample :
  module_imports urllib_parse.urljoin (Sample.prefixed "vite") = true /\
  DJANGO_VITE_STATIC_URL urllib_parse.urljoin (Sample.prefixed "vite")
  = "/static/vite/" /\
  Str.endswith "/"
    (DJANGO_VITE_STATIC_URL urllib_parse.urljoin (Sample.prefixed "vite"))
  = true.
Proof.
  split; [reflexivity|]. split; [reflexivity|].
  exact (static_url_ends_with_slash urllib_parse.urljoin
           (Sample.prefixed "vite") eq_refl).
Defined.

(** X2. A prefix without its final slash resolves production URLs as the
    same prefix with the slash does. *)
Theorem production_url_prefix_slash
  (urljoin : string -> string -> string) (settings : Settings)
  (path : string) :
  Str.endswith "/" (DJANGO_VITE_STATIC_URL_PREFIX settings) = false ->
  _generate_production_server_url urljoin settings path =
  _generate_production_server_url urljoin
    (with_prefix settings (DJANGO_VITE_STATIC_URL_PREFIX settings ++ "/"))
    path.
Proof.
  intros Hno. unfold _generate_production_server_url. simpl.
  now rewrite Hno, endswith_slash_append.
Qed.

Lemma production_url_prefix_slash_sample :
  Str.endswith "/" (DJANGO_VITE_STATIC_URL_PREFIX (Sample.prefixed "vite"))
  = false /\
  _generate_production_server_url urllib_parse.urljoin
    (Sample.prefixed "vite") "assets/main.4f2a.js" =
  _generate_production_server_url urllib_parse.urljoin
    (Sample.prefixed "vite/") "assets/main.4f2a.js" /\
  _generate_production_server_url urllib_parse.urljoin
    (Sample.prefixed "vite") "assets/main.4f2a.js" =
  "vite/assets/main.4f2a.js".
Proof.
  split; [reflexivity|]. split; [|reflexivity].
  exact (production_url_prefix_slash urllib_parse.urljoin
           (Sample.prefixed "vite") "assets/main.4f2a.js" eq_refl).
Defined.

(** ** The order of the merged attributes *)

Lemma dict_set_absent (d : dict) (k v : string) :
  ~ In k (keys d) -> dict_set d k v = d ++ [(k, v)].
Proof.
  induction d as [|[k' v'] r IH]; simpl; intros Hk; [reflexivity|].
  destruct (String.eqb k' k) eqn:E.
  - apply String.eqb_eq in E. tauto.
  - now rewrite IH by tauto.
Qed.

Lemma dict_set_present (d : dict) (k v : string) :
  NoDup (keys d) -> In k (keys d) ->
  dict_set d k v =
  map (fun kv => (fst kv, if String.eqb (fst kv) k then v else snd kv)) d.
Proof.
  induction d as [|[k' v'] r IH]; simpl; intros Hnd Hk; [tauto|].
  inversion Hnd as [|x l Hx Hr]; subst.
  destruct (String.eqb k' k) eqn:E.
  - apply String.eqb_eq in E. subst k'. f_equal.
    clear IH Hk Hnd Hr. induction r as [|[k0 v0] r IH]; [reflexivity|].
    simpl in *. destruct (String.eqb k0 k) eqn:E0.
    + apply String.eqb_eq in E0. tauto.
    + now rewrite <- IH by tauto.
  - destruct Hk as [->|Hk]; [rewrite String.eqb_refl in E; discriminate|].
    now rewrite IH.
Qed.

Lemma dict_get_absent (d : dict) (k : string) :
  ~ In k (keys d) -> dict_get d k = None.
Proof.
  induction d as [|[k' v'] r IH]; simpl; intros Hk; [reflexivity|].
  destruct (String.eqb k' k) eqn:E.
  - apply String.eqb_eq in E. tauto.
  - apply IH. tauto.
Qed.

Lemma dict_update_merged (kwargs : dict) :
  NoDup (keys kwargs) ->
  forall defaults,
    NoDup (keys defaults) ->
    dict_update defaults kwargs = merged_attrs defaults kwargs.
Proof.
  induction kwargs as [|[k v] r IH]; intros Hkw d Hd.
  - unfold merged_attrs. simpl. rewrite app_nil_r.
    induction d as [|[k' v'] d' IHd]; [reflexivity|].
    simpl. f_equal. apply IHd. now inversion Hd.
  - change (dict_update d ((k, v) :: r))
      with (dict_update (dict_set d k v) r).
    simpl in Hkw. inversion Hkw as [|x l Hk Hr]; subst.
    rewrite IH by (assumption || now apply dict_set_NoDup).
    unfold merged_attrs.
    destruct (in_dec string_dec k (keys d)) as [Hin|Hout].
    + rewrite (dict_set_present d k v Hd Hin). rewrite map_map. simpl.
      assert (Hex : existsb (String.eqb k) (keys d) = true)
        by now apply existsb_eqb_In.
      rewrite Hex. simpl. f_equal.
      * apply map_ext. intros [k0 v0]. simpl.
        destruct (String.eqb k k0) eqn:E.
        -- apply String.eqb_eq in E. subst k0. rewrite String.eqb_refl.
           now rewrite (dict_get_absent r k Hk).
        -- rewrite String.eqb_sym, E. reflexivity.
      * apply filter_ext. intros [k0 v0]. simpl. f_equal.
        apply existsb_eqb_ext. intros y. unfold keys.
        rewrite map_map. simpl. tauto.
    + rewrite (dict_set_absent d k v Hout). rewrite map_app. simpl.
      rewrite (dict_get_absent r k Hk).
      assert (Hex : existsb (String.eqb k) (keys d) = false).
      { destruct (existsb (String.eqb k) (keys d)) eqn:E; [|reflexivity].
        apply existsb_eqb_In in E. contradiction. }
      rewrite Hex. simpl. rewrite <- app_assoc. simpl. f_equal.
      * apply map_ext_in. intros [k0 v0] H0. simpl.
        destruct (String.eqb k k0) eqn:E; [|reflexivity].
        apply String.eqb_eq in E. subst k0. exfalso. apply Hout.
        unfold keys. change k with (fst (k, v0)). now apply in_map.
      * f_equal. apply filter_ext_in. intros [k0 v0] H0. simpl. f_equal.
        unfold keys. rewrite map_app. simpl. rewrite existsb_app. simpl.
        rewrite orb_false_r.
        destruct (String.eqb k0 k) eqn:E; [|now rewrite orb_false_r].
        apply String.eqb_eq in E. subst k0. exfalso. apply Hk.
        unfold keys. change k with (fst (k, v0)). now apply in_map.
Qed.

(** X3. The attributes of a script element are the defaults in their
    order, each with the caller's value when the caller names it, followed
    by the caller's other attributes in the caller's order: so for the
    asset in development and in production, and for the legacy asset. *)
Theorem script_attributes_order
  (urljoin : string -> string -> string) (settings : Settings)
  (kwargs : dict) :
  NoDup (keys kwargs) ->
  (DJANGO_VITE_DEV_MODE settings = true ->
   forall fuel self path,
     generate_vite_asset urljoin settings fuel self path kwargs =
     Ok (Html.script
           (_generate_vite_server_url urljoin settings path)
           (merged_attrs [("type", "module")] kwargs))) /\
  (DJANGO_VITE_DEV_MODE settings = false ->
   (forall m path e f files,
      acyclic m ->
      resolvable m path ->
      lookup m path = Some e ->
      file e = Some f ->
      import_files m (get_imports e) files ->
      exists l,
        css_closure m path l /\
        forall fuel, length m < fuel ->
          generate_vite_asset urljoin settings fuel (loaded m) path kwargs =
          Ok (Str.join Str.lf
                (map (fun css_path =>
                        Html.stylesheet
                          (_generate_production_server_url urljoin settings
                             css_path))
                   (first_occurrences l)
                   ++ [Html.script
                         (_generate_production_server_url urljoin settings
                            f)
                         (merged_attrs
                            [("type", "module");
                             ("crossorigin", Str.empty)] kwargs)]
                   ++ map (fun dep_file =>
                             Html.modulepreload
                               (urljoin
                                  (DJANGO_VITE_STATIC_URL urljoin settings)
                                  dep_file))
                        files))) /\
   (forall m path e f,
      lookup m path = Some e ->
      file e = Some f ->
      generate_vite_legacy_asset urljoin settings (loaded m) path kwargs =
      Ok (Html.script
            (_generate_production_server_url urljoin settings f)
            (merged_attrs
               [("nomodule", Str.empty); ("crossorigin", Str.empty)]
               kwargs)))).
Proof.
  intros Hnd.
  assert (Hk1 : NoDup (keys [("type", "module")])).
  { repeat constructor. simpl. tauto. }
  assert (Hk2 : NoDup (keys [("type", "module");
                             ("crossorigin", Str.empty)])).
  { repeat constructor; simpl; intuition discriminate. }
  assert (Hk3 : NoDup (keys [("nomodule", Str.empty);
                             ("crossorigin", Str.empty)])).
  { repeat constructor; simpl; intuition discriminate. }
  rewrite <- (dict_update_merged kwargs Hnd _ Hk1).
  rewrite <- (dict_update_merged kwargs Hnd _ Hk2).
  rewrite <- (dict_update_merged kwargs Hnd _ Hk3).
  split.
  - intros Hdev fuel self path. unfold generate_vite_asset. rewrite Hdev.
    now rewrite script_tag_html.
  - intros Hdev. split.
    + intros m path e f files Hacyc Hres El Ef Hfiles.
      exact (generate_vite_asset_markup urljoin settings m path e f files
               kwargs Hdev Hacyc Hres El Ef Hfiles).
    + intros m path e f El Ef.
      unfold generate_vite_legacy_asset.
      rewrite Hdev, (not_in_manifest_present m path e El),
        (getitem_loaded m path e El).
      simpl. unfold entry_file. rewrite Ef. simpl.
      now rewrite script_tag_html.
Qed.

Lemma script_attributes_order_sample :
  let kwargs :=
    [("defer", Str.empty); ("crossorigin", "anonymous"); ("id", "app")] in
  NoDup (keys kwargs) /\
  generate_vite_legacy_asset urllib_parse.urljoin Sample.production
    (loaded Sample.one_entry) "src/main.js" kwargs =
  Ok
    ("<script nomodule=" ++ Str.dquote ++ Str.dquote ++ " crossorigin=" ++ Str.dquote ++ "anonymous" ++ Str.dquote ++ " defer=" ++ Str.dquote ++ Str.dquote ++ " id=" ++ Str.dquote ++ "app" ++ Str.dquote ++ " src=" ++ Str.dquote ++ "/assets/main.4f2a.js" ++ Str.dquote ++ "></script>")%string /\
  generate_vite_asset urllib_parse.urljoin Sample.development 0
    {| _manifest := None |} "src/main.js" kwargs =
  Ok
    ("<script type=" ++ Str.dquote ++ "module" ++ Str.dquote ++ " defer=" ++ Str.dquote ++ Str.dquote ++ " crossorigin=" ++ Str.dquote ++ "anonymous" ++ Str.dquote ++ " id=" ++ Str.dquote ++ "app" ++ Str.dquote ++ " src=" ++ Str.dquote ++ "http://localhost:3000/static/src/main.js" ++ Str.dquote ++ "></script>")%string.
Proof.
  intros kwargs.
  assert (Hnd : NoDup (keys kwargs)).
  { repeat constructor; simpl; intuition discriminate. }
  split; [exact Hnd|].
  split.
  - destruct (script_attributes_order urllib_parse.urljoin
                Sample.production kwargs Hnd) as [_ Hprod].
    destruct (Hprod eq_refl) as [_ Hlegacy].
    rewrite (Hlegacy Sample.one_entry "src/main.js"
               {| file := Some "assets/main.4f2a.js"; imports := None;
                  css := None |}
               "assets/main.4f2a.js" eq_refl eq_refl).
    reflexivity.
  - destruct (script_attributes_order urllib_parse.urljoin
                Sample.development kwargs Hnd) as [Hdev _].
    rewrite (Hdev eq_refl 0 {| _manifest := None |} "src/main.js").
    reflexivity.
Defined.

(** ** The walker and the caller's list *)

(** X4. Called with a list of paths already processed, the CSS
    collection returns tags for the closure's paths that are not in the
    list, each once, and hands the list back extended by every path it
    came across. *)
Theorem css_files_skip_already_processed
  (urljoin : string -> string -> string) (settings : Settings)
  (tag_generator : string -> string) (m : Manifest) (k : string) :
  acyclic m ->
  resolvable m k ->
  exists l,
    css_closure m k l /\
    forall already_processed fuel, length m < fuel ->
      _generate_css_files_of_asset urljoin settings fuel (loaded m) k
        already_processed tag_generator =
      Ok (map (fun css_path =>
                 tag_generator
                   (_generate_production_server_url urljoin settings
                      css_path))
            (unseen already_processed l),
          already_processed ++ l)
      /\ NoDup (unseen already_processed l)
      /\ (forall c, In c (unseen already_processed l) <->
                    In c l /\ ~ In c already_processed).
Proof.
  intros Hacyc Hres.
  destruct (walk_returns urljoin settings tag_generator m
              (S (length m)) k [] Hacyc Hres (Nat.lt_succ_diag_r _))
    as [l [Hl _]].
  exists l. split; [assumption|].
  intros ap fuel Hfuel. split; [|split].
  - destruct (walk_returns urljoin settings tag_generator m fuel k ap
                Hacyc Hres Hfuel) as [l' [Hl' E]].
    rewrite (css_closure_fun m k l Hl l' Hl'). exact E.
  - apply unseen_NoDup.
  - intros c. apply unseen_In.
Qed.

Lemma css_files_skip_already_processed_sample :
  acyclic Sample.shared_css /\
  resolvable Sample.shared_css "parent.js" /\
  _generate_css_files_of_asset urllib_parse.urljoin Sample.production 4
    (loaded Sample.shared_css) "parent.js" ["b.css"] (fun href => href) =
  Ok (["/a.css"], ["b.css"; "a.css"; "a.css"; "b.css"]).
Proof.
  assert (Ha : acyclic Sample.shared_css).
  { apply (ranked_acyclic Sample.shared_css_rank). reflexivity. }
  assert (Hr : resolvable Sample.shared_css "parent.js").
  { apply imports_closed_resolvable; reflexivity. }
  split; [exact Ha|]. split; [exact Hr|].
  destruct (css_files_skip_already_processed urllib_parse.urljoin
              Sample.production (fun href => href) Sample.shared_css
              "parent.js" Ha Hr) as [l [Hl Hrun]].
  assert (El : l = ["a.css"; "a.css"; "b.css"]).
  { apply (css_closure_fun Sample.shared_css "parent.js" l Hl).
    apply (closure_entry Sample.shared_css "parent.js" _
             ["a.css"; "a.css"; "b.css"] eq_refl).
    apply (closure_cons Sample.shared_css "A.js" ["B.js"]
             ["a.css"] ["a.css"; "b.css"]).
    - apply (closure_entry Sample.shared_css "A.js" _ [] eq_refl).
      constructor.
    - apply (closure_cons Sample.shared_css "B.js" []
               ["a.css"; "b.css"] []).
      + apply (closure_entry Sample.shared_css "B.js" _ [] eq_refl).
        constructor.
      + constructor. }
  destruct (Hrun ["b.css"] 4 (Nat.lt_succ_diag_r 3)) as [E _].
  rewrite E, El. reflexivity.
Defined.

(** ** The other operations in production *)

(** X6. For a present entry of a manifest that is acyclic and has the
    keys and files it refers to, [preload_vite_asset] in production
    returns the modulepreload link of the entry's file, then a preload
    link for each unique CSS path of the import closure, then the
    modulepreload links of the direct imports, joined in that order. *)
Theorem preload_vite_asset_production
  (urljoin : string -> string -> string) (settings : Settings)
  (m : Manifest) (path : string) (e : ManifestEntry) (f : string)
  (files : list string) :
  DJANGO_VITE_DEV_MODE settings = false ->
  acyclic m ->
  resolvable m path ->
  lookup m path = Some e ->
  file e = Some f ->
  import_files m (get_imports e) files ->
  exists l,
    css_closure m path l /\
    NoDup (first_occurrences l) /\
    (forall c, In c (first_occurrences l) <-> In c l) /\
    forall fuel, length m < fuel ->
      preload_vite_asset urljoin settings fuel (loaded m) path =
      Ok (Str.join Str.lf
            ([Html.modulepreload
                (urljoin (DJANGO_VITE_STATIC_URL urljoin settings) f)]
               ++ map (fun css_path =>
                         Html.preload_style
                           (_generate_production_server_url urljoin settings
                              css_path))
                    (first_occurrences l)
               ++ map (fun dep_file =>
                         Html.modulepreload
                           (urljoin (DJANGO_VITE_STATIC_URL urljoin settings)
                              dep_file))
                    files)).
Proof.
  intros Hdev Hacyc Hres El Ef Hfiles.
  destruct (walk_returns urljoin settings
              Tag._generate_stylesheet_preload_tag m
              (S (length m)) path [] Hacyc Hres (Nat.lt_succ_diag_r _))
    as [l [Hl _]].
  exists l. split; [assumption|]. split; [apply unseen_NoDup|].
  split.
  - intros c. unfold first_occurrences. rewrite unseen_In. simpl. tauto.
  - intros fuel Hfuel.
    destruct (walk_returns urljoin settings
                Tag._generate_stylesheet_preload_tag m
                fuel path [] Hacyc Hres Hfuel) as [l' [Hl' E]].
    rewrite <- (css_closure_fun m path l Hl l' Hl') in E. simpl in E.
    unfold preload_vite_asset. rewrite Hdev.
    rewrite (not_in_manifest_present m path e El).
    rewrite (getitem_loaded m path e El). simpl.
    unfold entry_file. rewrite Ef. simpl.
    unfold _preload_css_files_of_asset. rewrite E. simpl.
    rewrite (preload_imports_files urljoin settings m (get_imports e)
               files Hfiles).
    rewrite preload_tag_html.
    rewrite (map_ext _ _
               (fun css_path =>
                  stylesheet_preload_tag_html
                    (_generate_production_server_url urljoin settings
                       css_path))).
    reflexivity.
Qed.

Lemma preload_vite_asset_production_sample :
  DJANGO_VITE_DEV_MODE Sample.production = false /\
  acyclic Sample.with_polyfills /\
  resolvable Sample.with_polyfills "src/main.js" /\
  preload_vite_asset urllib_parse.urljoin Sample.production 4
    (loaded Sample.with_polyfills) "src/main.js" =
  Ok
    ("<link href=" ++ Str.dquote ++ "/static/assets/main.4f2a.js" ++ Str.dquote ++ " type=" ++ Str.dquote ++ "text/javascript" ++ Str.dquote ++ " crossorigin=" ++ Str.dquote ++ "anonymous" ++ Str.dquote ++ " rel=" ++ Str.dquote ++ "modulepreload" ++ Str.dquote ++ " as=" ++ Str.dquote ++ "script" ++ Str.dquote ++ " />" ++ Str.lf ++ "<link rel=" ++ Str.dquote ++ "preload" ++ Str.dquote ++ " href=" ++ Str.dquote ++ "/assets/main.91c0.css" ++ Str.dquote ++ " as=" ++ Str.dquote ++ "style" ++ Str.dquote ++ " />" ++ Str.lf ++ "<link href=" ++ Str.dquote ++ "/static/assets/vendor.77b1.js" ++ Str.dquote ++ " type=" ++ Str.dquote ++ "text/javascript" ++ Str.dquote ++ " crossorigin=" ++ Str.dquote ++ "anonymous" ++ Str.dquote ++ " rel=" ++ Str.dquote ++ "modulepreload" ++ Str.dquote ++ " as=" ++ Str.dquote ++ "script" ++ Str.dquote ++ " />")%string.
Proof.
  assert (Ha : acyclic Sample.with_polyfills).
  { apply (ranked_acyclic Sample.with_polyfills_rank). reflexivity. }
  assert (Hr : resolvable Sample.with_polyfills "src/main.js").
  { apply imports_closed_resolvable; reflexivity. }
  split; [reflexivity|]. split; [exact Ha|]. split; [exact Hr|].
  destruct (preload_vite_asset_production urllib_parse.urljoin
              Sample.production Sample.with_polyfills "src/main.js"
              (Sample.entry "assets/main.4f2a.js" ["_vendor.js"]
                 ["assets/main.91c0.css"])
              "assets/main.4f2a.js" ["assets/vendor.77b1.js"]
              eq_refl Ha Hr eq_refl eq_refl)
    as [l [Hl [_ [_ Hrun]]]].
  { constructor; [|constructor].
    exists (Sample.entry "assets/vendor.77b1.js" [] []). now split. }
  assert (El : l = ["assets/main.91c0.css"]).
  { apply (css_closure_fun Sample.with_polyfills "src/main.js" l Hl).
    apply (closure_entry Sample.with_polyfills "src/main.js" _
             [] eq_refl).
    apply (closure_cons Sample.with_polyfills "_vendor.js" [] [] []).
    - apply (closure_entry Sample.with_polyfills "_vendor.js" _ [] eq_refl).
      constructor.
    - constructor. }
  rewrite (Hrun 4 (Nat.lt_succ_diag_r 3)). rewrite El. reflexivity.
Defined.

(** X9. The script element of an asset points where the URL operation
    says: when [generate_vite_asset] returns, [generate_vite_asset_url]
    returns too, and the markup is a run of elements that are not script
    elements, the script element with that URL as its source, and another
    run of elements that are not script elements, in development and in
    production. *)
Theorem script_source_is_asset_url
  (urljoin : string -> string -> string) (settings : Settings)
  (fuel : nat) (self : DjangoViteAssetLoader) (path : string)
  (kwargs : dict) (out : string) :
  generate_vite_asset urljoin settings fuel self path kwargs = Ok out ->
  exists url css_tags preload_tags,
    generate_vite_asset_url urljoin settings self path = Ok url /\
    Forall (fun t => is_script_tag t = false) css_tags /\
    Forall (fun t => is_script_tag t = false) preload_tags /\
    out = Str.join Str.lf
            (css_tags
               ++ [Html.script url
                     (dict_update
                        (if DJANGO_VITE_DEV_MODE settings
                         then [("type", "module")]
                         else [("type", "module");
                               ("crossorigin", Str.empty)])
                        kwargs)]
               ++ preload_tags).
Proof.
  intros Hout.
  destruct (DJANGO_VITE_DEV_MODE settings) eqn:Hdev.
  - unfold generate_vite_asset in Hout. rewrite Hdev in Hout.
    injection Hout as <-.
    exists (_generate_vite_server_url urljoin settings path), [], [].
    unfold generate_vite_asset_url. rewrite Hdev.
    split; [reflexivity|]. split; [constructor|]. split; [constructor|].
    now rewrite script_tag_html.
  - destruct (generate_vite_asset_shape urljoin settings fuel self path
                kwargs out Hdev Hout)
      as [e [f [css_tags [preload_tags
            [Hin [Hget [Hf [Hcss [Hpre ->]]]]]]]]].
    exists (_generate_production_server_url urljoin settings f),
      css_tags, preload_tags.
    split; [|now repeat split].
    unfold generate_vite_asset_url. rewrite Hdev, Hin, Hget.
    simpl. unfold entry_file. now rewrite Hf.
Qed.

Lemma script_source_is_asset_url_sample :
  generate_vite_asset urllib_parse.urljoin Sample.production_cdn 4
    (loaded Sample.with_polyfills) "src/main.js" [] =
  Ok
    ("<link rel=" ++ Str.dquote ++ "stylesheet" ++ Str.dquote ++ " href=" ++ Str.dquote ++ "https://cdn.example.com/assets/main.91c0.css" ++ Str.dquote ++ " />" ++ Str.lf ++ "<script type=" ++ Str.dquote ++ "module" ++ Str.dquote ++ " crossorigin=" ++ Str.dquote ++ Str.dquote ++ " src=" ++ Str.dquote ++ "https://cdn.example.com/assets/main.4f2a.js" ++ Str.dquote ++ "></script>" ++ Str.lf ++ "<link href=" ++ Str.dquote ++ "/static/assets/vendor.77b1.js" ++ Str.dquote ++ " type=" ++ Str.dquote ++ "text/javascript" ++ Str.dquote ++ " crossorigin=" ++ Str.dquote ++ "anonymous" ++ Str.dquote ++ " rel=" ++ Str.dquote ++ "modulepreload" ++ Str.dquote ++ " as=" ++ Str.dquote ++ "script" ++ Str.dquote ++ " />")%string /\
  exists css_tags preload_tags,
    generate_vite_asset_url urllib_parse.urljoin Sample.production_cdn
      (loaded Sample.with_polyfills) "src/main.js" =
    Ok "https://cdn.example.com/assets/main.4f2a.js" /\
    Forall (fun t => is_script_tag t = false) css_tags /\
    Forall (fun t => is_script_tag t = false) preload_tags /\
    ("<link rel=" ++ Str.dquote ++ "stylesheet" ++ Str.dquote ++ " href=" ++ Str.dquote ++ "https://cdn.example.com/assets/main.91c0.css" ++ Str.dquote ++ " />" ++ Str.lf ++ "<script type=" ++ Str.dquote ++ "module" ++ Str.dquote ++ " crossorigin=" ++ Str.dquote ++ Str.dquote ++ " src=" ++ Str.dquote ++ "https://cdn.example.com/assets/main.4f2a.js" ++ Str.dquote ++ "></script>" ++ Str.lf ++ "<link href=" ++ Str.dquote ++ "/static/assets/vendor.77b1.js" ++ Str.dquote ++ " type=" ++ Str.dquote ++ "text/javascript" ++ Str.dquote ++ " crossorigin=" ++ Str.dquote ++ "anonymous" ++ Str.dquote ++ " rel=" ++ Str.dquote ++ "modulepreload" ++ Str.dquote ++ " as=" ++ Str.dquote ++ "script" ++ Str.dquote ++ " />")%string =
    Str.join Str.lf
      (css_tags
         ++ [Html.script "https://cdn.example.com/assets/main.4f2a.js"
               [("type", "module"); ("crossorigin", Str.empty)]]
         ++ preload_tags).
Proof.
  split; [reflexivity|].
  destruct (script_source_is_asset_url urllib_parse.urljoin
              Sample.production_cdn 4 (loaded Sample.with_polyfills)
              "src/main.js" [] _ eq_refl)
    as [url [css_tags [preload_tags [Hurl [Hcss [Hpre Hout]]]]]].
  exists css_tags, preload_tags.
  vm_compute in Hurl. injection Hurl as <-.
  split; [reflexivity|]. split; [exact Hcss|]. split; [exact Hpre|].
  exact Hout.
Defined.

(** ** The singleton *)

Section Singleton.

Variable urljoin : string -> string -> string.
Variable settings : Settings.
Variable open_read : string -> string + string.
Variable json_loads : string -> Manifest + string.

Lemma instance_stores (w w1 : World) (self : DjangoViteAssetLoader) :
  instance settings open_read json_loads w = (Ok self, w1) ->
  cls_instance w1 = Some self.
Proof.
  unfold instance. destruct (cls_instance w) as [s|] eqn:E.
  - intros [= <- <-]. exact E.
  - destruct (DJANGO_VITE_DEV_MODE settings).
    + intros [= <- <-]. reflexivity.
    + unfold _parse_manifest.
      destruct (open_read _) as [c|err]; [|discriminate].
      destruct (json_loads c) as [m|err]; [|discriminate].
      intros [= <- <-]. reflexivity.
Qed.

Lemma instance_stored (w : World) (self : DjangoViteAssetLoader) :
  cls_instance w = Some self ->
  instance settings open_read json_loads w = (Ok self, w).
Proof. unfold instance. now intros ->. Qed.

(** What a call leaves: the world as it was, or a world with a loader
    stored and at most the manifest path opened. *)
Lemma call_world (fuel : nat) (op : Operation) (w : World) :
  let w1 := snd (call urljoin settings open_read json_loads fuel op w) in
  (forall self, cls_instance w = Some self -> w1 = w) /\
  (cls_instance w = None ->
   w1 = w \/
   (cls_instance w1 <> None /\
    (opened w1 = opened w \/
     opened w1 = opened w ++ [DJANGO_VITE_MANIFEST_PATH settings]))).
Proof.
  assert (Hinst :
    forall w',
      (forall self, cls_instance w = Some self ->
         snd (instance settings open_read json_loads w) = w) /\
      (cls_instance w = None ->
       w' = snd (instance settings open_read json_loads w) ->
       cls_instance w' <> None /\
       (opened w' = opened w \/
        opened w' = opened w ++ [DJANGO_VITE_MANIFEST_PATH settings]))).
  { intros w'. split.
    - intros self Hs. now rewrite (instance_stored w self Hs).
    - intros Hn ->. unfold instance. rewrite Hn.
      destruct (DJANGO_VITE_DEV_MODE settings); simpl.
      + split; [discriminate | now left].
      + unfold _parse_manifest.
        destruct (open_read _) as [c|err];
          [destruct (json_loads c) as [m|err]|]; simpl;
          (split; [discriminate | now right]). }
  assert (Hon : forall (method : DjangoViteAssetLoader -> result string),
             snd (on_instance settings open_read json_loads method w) =
             snd (instance settings open_read json_loads w)).
  { intros method. unfold on_instance.
    destruct (instance settings open_read json_loads w) as [[s| |] w0];
      reflexivity. }
  destruct op; simpl;
    unfold vite_hmr_client, vite_asset, vite_preload_asset, vite_asset_url,
      vite_legacy_polyfills, vite_legacy_asset, vite_react_refresh;
    try rewrite Hon; simpl;
    try (split; [intros; reflexivity | intros; now left]);
    (split;
     [ apply (Hinst w)
     | intros Hn; right; now apply (Hinst _) ]).
Qed.

End Singleton.

(** X10. Once [instance()] has returned the loader, it returns the same
    loader again and every operation gives the result it gave and leaves
    the class and the file system as they are. *)
Theorem loader_is_cached
  (urljoin : string -> string -> string) (settings : Settings)
  (open_read : string -> string + string)
  (json_loads : string -> Manifest + string)
  (w w1 : World) (self : DjangoViteAssetLoader) :
  instance settings open_read json_loads w = (Ok self, w1) ->
  instance settings open_read json_loads w1 = (Ok self, w1) /\
  forall fuel op,
    fst (call urljoin settings open_read json_loads fuel op w1) =
    fst (call urljoin settings open_read json_loads fuel op w) /\
    snd (call urljoin settings open_read json_loads fuel op w1) = w1.
Proof.
  intros Hinst.
  assert (Hs := instance_stores settings open_read json_loads w w1 self
                  Hinst).
  assert (H1 := instance_stored settings open_read json_loads w1 self Hs).
  split; [exact H1|].
  intros fuel op.
  destruct op; simpl;
    unfold vite_hmr_client, vite_asset, vite_preload_asset, vite_asset_url,
      vite_legacy_polyfills, vite_legacy_asset, vite_react_refresh,
      on_instance;
    try rewrite H1; try rewrite Hinst; split; reflexivity.
Qed.

Lemma loader_is_cached_sample :
  let open_read :=
    Sample.disk [("/srv/static/manifest.json", Sample.one_entry_text)] in
  let json_loads := Sample.parser Sample.documents in
  let w1 := {| cls_instance := Some (loaded Sample.one_entry);
               opened := ["/srv/static/manifest.json"] |} in
  instance Sample.production open_read json_loads Sample.fresh =
  (Ok (loaded Sample.one_entry), w1) /\
  call urllib_parse.urljoin Sample.production open_read json_loads 4
    (ViteAssetUrl "src/main.js") w1 =
  (Ok "/assets/main.4f2a.js", w1).
Proof.
  intros open_read json_loads w1.
  split; [reflexivity|].
  destruct (loader_is_cached urllib_parse.urljoin Sample.production
              open_read json_loads Sample.fresh w1
              (loaded Sample.one_entry) eq_refl) as [_ Hcall].
  destruct (Hcall 4 (ViteAssetUrl "src/main.js")) as [Hfst Hsnd].
  destruct (call urllib_parse.urljoin Sample.production open_read
              json_loads 4 (ViteAssetUrl "src/main.js") w1) as [r w2].
  simpl in Hfst, Hsnd. rewrite Hfst, Hsnd. reflexivity.
Defined.

(** X11. Over any sequence of operations the manifest file is opened at
    most once, and not at all when a loader is already stored. *)
Theorem manifest_opened_at_most_once
  (urljoin : string -> string -> string) (settings : Settings)
  (open_read : string -> string + string)
  (json_loads : string -> Manifest + string)
  (fuel : nat) (ops : list Operation) (w : World) :
  (forall self,
     cls_instance w = Some self ->
     run_all urljoin settings open_read json_loads fuel ops w = w) /\
  (opened (run_all urljoin settings open_read json_loads fuel ops w) =
   opened w \/
   opened (run_all urljoin settings open_read json_loads fuel ops w) =
   opened w ++ [DJANGO_VITE_MANIFEST_PATH settings]).
Proof.
  assert (Hsome : forall ops w self,
             cls_instance w = Some self ->
             run_all urljoin settings open_read json_loads fuel ops w = w).
  { clear ops w. induction ops as [|op rest IH]; intros w self Hs.
    - reflexivity.
    - unfold run_all. simpl.
      rewrite (proj1 (call_world urljoin settings open_read json_loads fuel
                        op w) self Hs).
      exact (IH w self Hs). }
  split; [apply Hsome|].
  revert w. induction ops as [|op rest IH]; intros w.
  - now left.
  - destruct (cls_instance w) as [self|] eqn:E.
    + rewrite (Hsome (op :: rest) w self E). now left.
    + unfold run_all. simpl.
      destruct (proj2 (call_world urljoin settings open_read json_loads fuel
                         op w) E) as [Hsame|[Hsome1 Hopen]].
      * rewrite Hsame. apply IH.
      * set (w1 := snd (call urljoin settings open_read json_loads fuel
                          op w)) in *.
        destruct (cls_instance w1) as [self1|] eqn:E1; [|contradiction].
        change (fold_left _ rest w1)
          with (run_all urljoin settings open_read json_loads fuel rest w1).
        rewrite (Hsome rest w1 self1 E1). exact Hopen.
Qed.

(** X12. A manifest that cannot be read is not read again: the first
    operation that asks for the loader, whichever it is, raises the error
    of the unreadable manifest and leaves a loader without a manifest,
    after which every operation that takes a path raises the error of an
    unknown asset and the polyfills raise an [AttributeError], the file
    being left alone. *)
Theorem failed_load_is_not_retried
  (urljoin : string -> string -> string) (settings : Settings)
  (open_read : string -> string + string)
  (json_loads : string -> Manifest + string)
  (fuel : nat) (w : World) (error : string) :
  DJANGO_VITE_DEV_MODE settings = false ->
  cls_instance w = None ->
  open_read (DJANGO_VITE_MANIFEST_PATH settings) = inr error \/
  (exists content,
     open_read (DJANGO_VITE_MANIFEST_PATH settings) = inl content /\
     json_loads content = inr error) ->
  let w1 := {| cls_instance := Some {| _manifest := None |};
               opened := opened w ++ [DJANGO_VITE_MANIFEST_PATH settings] |}
  in
  (forall op,
     uses_loader op = true ->
     call urljoin settings open_read json_loads fuel op w =
     (Exception (cannot_read settings error), w1)) /\
  (forall op path,
     path_of op = Some path ->
     call urljoin settings open_read json_loads fuel op w1 =
     (Exception (cannot_find settings path), w1)) /\
  (forall kwargs,
     call urljoin settings open_read json_loads fuel
       (ViteLegacyPolyfills kwargs) w1 =
     (Exception
        (AttributeError "'NoneType' object has no attribute 'items'"),
      w1)).
Proof.
  intros Hdev Hnone Hfail w1.
  assert (Hinst : instance settings open_read json_loads w =
                  (Exception (cannot_read settings error), w1)).
  { unfold instance. rewrite Hnone, Hdev. unfold _parse_manifest.
    destruct Hfail as [Hopen|[content [Hopen Hjson]]]; rewrite Hopen;
      [|rewrite Hjson]; reflexivity. }
  split; [|split].
  - intros op Hop. destruct op; try discriminate Hop; simpl;
      unfold vite_asset, vite_preload_asset, vite_asset_url,
        vite_legacy_polyfills, vite_legacy_asset, on_instance;
      now rewrite Hinst.
  - intros op path Hop. destruct op; try discriminate Hop;
      injection Hop as ->; simpl;
      unfold vite_asset, vite_preload_asset, vite_asset_url,
        vite_legacy_asset, on_instance; simpl;
      unfold generate_vite_asset, preload_vite_asset,
        generate_vite_asset_url, generate_vite_legacy_asset; simpl;
      rewrite Hdev; reflexivity.
  - intros kwargs. simpl. unfold vite_legacy_polyfills, on_instance. simpl.
    unfold generate_vite_legacy_polyfills. simpl. rewrite Hdev. reflexivity.
Qed.

Lemma failed_load_is_not_retried_sample :
  let w1 := {| cls_instance := Some {| _manifest := None |};
               opened := ["/srv/static/manifest.json"] |} in
  call urllib_parse.urljoin Sample.production Sample.no_file Sample.no_json
    4 (VitePreloadAsset "src/main.js") Sample.fresh =
  (Exception
     (RuntimeError
        "Cannot read Vite manifest file at /srv/static/manifest.json : [Errno 2] No such file or directory: '/srv/static/manifest.json'"),
   w1)
  /\ call urllib_parse.urljoin Sample.production Sample.no_file
       Sample.no_json 4 (ViteLegacyAsset "src/main.js" []) w1 =
     (Exception
        (RuntimeError
           "Cannot find src/main.js in Vite manifest at /srv/static/manifest.json"),
      w1)
  /\ call urllib_parse.urljoin Sample.production Sample.no_file
       Sample.no_json 4 (ViteLegacyPolyfills []) w1 =
     (Exception
        (AttributeError "'NoneType' object has no attribute 'items'"),
      w1).
Proof.
  intros w1.
  destruct (failed_load_is_not_retried urllib_parse.urljoin
              Sample.production Sample.no_file Sample.no_json 4
              Sample.fresh
              "[Errno 2] No such file or directory: '/srv/static/manifest.json'"
              eq_refl eq_refl (or_introl eq_refl))
    as [H1 [H2 H3]].
  split; [|split].
  - exact (H1 (VitePreloadAsset "src/main.js") eq_refl).
  - exact (H2 (ViteLegacyAsset "src/main.js" []) "src/main.js" eq_refl).
  - exact (H3 []).
Defined.

(** ** The polyfills among several keys *)

(** X13. Among the keys of the manifest that contain the motif, the first
    in the manifest's order decides: its file gives the source of the
    script element, which opens with the [nomodule] attribute, and
    without a file the call raises a [KeyError], whatever keys follow. *)
Theorem legacy_polyfills_first_match
  (urljoin : string -> string -> string) (settings : Settings)
  (before after : Manifest) (k : string) (e : ManifestEntry)
  (kwargs : dict) :
  DJANGO_VITE_DEV_MODE settings = false ->
  (forall k', In k' (keys before) ->
     Str.contains (DJANGO_VITE_LEGACY_POLYFILLS_MOTIF settings) k' = false) ->
  Str.contains (DJANGO_VITE_LEGACY_POLYFILLS_MOTIF settings) k = true ->
  generate_vite_legacy_polyfills urljoin settings
    (loaded (before ++ (k, e) :: after)) kwargs =
  match file e with
  | Some f =>
      Ok (Html.script
            (_generate_production_server_url urljoin settings f)
            (dict_update
               [("nomodule", Str.empty); ("crossorigin", Str.empty)]
               kwargs))
  | None => Exception (KeyError "file")
  end
  /\ forall f,
       file e = Some f ->
       Str.startswith ("<script nomodule=" ++ Str.dquote)
         (Html.script
            (_generate_production_server_url urljoin settings f)
            (dict_update
               [("nomodule", Str.empty); ("crossorigin", Str.empty)]
               kwargs)) = true.
Proof.
  intros Hdev Hbefore Hk. split.
  - unfold generate_vite_legacy_polyfills. rewrite Hdev. simpl.
    exact (find_polyfills_first urljoin settings before after k e _
             Hbefore Hk).
  - intros f _. apply nomodule_script_startswith. apply dict_update_head.
Qed.

Lemma legacy_polyfills_first_match_sample :
  generate_vite_legacy_polyfills urllib_parse.urljoin Sample.production
    (loaded Sample.two_polyfills) [] =
  Ok
    ("<script nomodule=" ++ Str.dquote ++ Str.dquote ++ " crossorigin=" ++ Str.dquote ++ Str.dquote ++ " src=" ++ Str.dquote ++ "/assets/polyfills-legacy.0c3e.js" ++ Str.dquote ++ "></script>")%string.
Proof.
  destruct (legacy_polyfills_first_match urllib_parse.urljoin
              Sample.production
              [("src/main.js", Sample.entry "assets/main.4f2a.js" [] [])]
              [("vite/legacy-polyfills-old",
                Sample.entry "assets/polyfills-old.1d2f.js" [] [])]
              "vite/legacy-polyfills"
              (Sample.entry "assets/polyfills-legacy.0c3e.js" [] []) []
              eq_refl) as [Hout _].
  - intros k' [<-|[]]. reflexivity.
  - reflexivity.
  - exact Hout.
Defined.

(** ** Distinct stylesheet links *)

Lemma append_length (a b : string) :
  String.length (a ++ b) = String.length a + String.length b.
Proof. induction a as [|c a IH]; simpl; [reflexivity | now rewrite IH]. Qed.

Lemma append_cancel_l (p a b : string) :
  (p ++ a = p ++ b)%string -> a = b.
Proof.
  induction p as [|c p IH]; simpl; [trivial|].
  intros [= H]. now apply IH.
Qed.

Lemma append_cancel_r (s a b : string) :
  (a ++ s = b ++ s)%string -> a = b.
Proof.
  revert b. induction a as [|c a IH]; intros b H.
  - destruct b as [|d b]; [reflexivity|]. exfalso.
    apply (f_equal String.length) in H. simpl in H.
    rewrite append_length in H. lia.
  - destruct b as [|d b].
    + exfalso. apply (f_equal String.length) in H. simpl in H.
      rewrite append_length in H. lia.
    + simpl in H. injection H as -> H. f_equal. now apply IH.
Qed.

Lemma stylesheet_tag_injective (h1 h2 : string) :
  Tag._generate_stylesheet_tag h1 = Tag._generate_stylesheet_tag h2 ->
  h1 = h2.
Proof.
  unfold Tag._generate_stylesheet_tag. intros H.
  repeat (apply append_cancel_l in H).
  rewrite <- !append_assoc in H.
  now repeat (apply append_cancel_r in H).
Qed.

Lemma NoDup_map_injective_on {A B : Type} (g : A -> B) (l : list A) :
  (forall x y, In x l -> In y l -> g x = g y -> x = y) ->
  NoDup l -> NoDup (map g l).
Proof.
  induction l as [|x r IH]; intros Hinj Hnd; simpl; [constructor|].
  inversion Hnd as [|x' r' Hx Hr]; subst. constructor.
  - intros Hin. apply in_map_iff in Hin. destruct Hin as [y [Hy Hyr]].
    assert (y = x) by (apply Hinj; simpl; auto). subst. contradiction.
  - apply IH; [|assumption]. intros a b Ha Hb. apply Hinj; simpl; auto.
Qed.

(** X14. When the production URLs of the closure's CSS paths are pairwise
    distinct, no stylesheet link is returned twice. *)
Theorem stylesheet_links_distinct
  (urljoin : string -> string -> string) (settings : Settings)
  (m : Manifest) (k : string) :
  acyclic m ->
  resolvable m k ->
  (forall l c1 c2,
     css_closure m k l -> In c1 l -> In c2 l ->
     _generate_production_server_url urljoin settings c1 =
     _generate_production_server_url urljoin settings c2 ->
     c1 = c2) ->
  forall fuel, length m < fuel ->
    exists tags already_processed,
      _load_css_files_of_asset urljoin settings fuel (loaded m) k [] =
      Ok (tags, already_processed) /\
      NoDup tags.
Proof.
  intros Hacyc Hres Hinj fuel Hfuel.
  destruct (walk_returns urljoin settings Tag._generate_stylesheet_tag m
              fuel k [] Hacyc Hres Hfuel) as [l [Hl E]].
  eexists; eexists. split; [exact E|].
  apply NoDup_map_injective_on; [|apply unseen_NoDup].
  intros x y Hx Hy Heq. apply stylesheet_tag_injective in Heq.
  apply unseen_In in Hx. apply unseen_In in Hy.
  apply (Hinj l x y Hl); tauto.
Qed.

Lemma stylesheet_links_distinct_sample :
  exists tags already_processed,
    _load_css_files_of_asset urllib_parse.urljoin Sample.production 4
      (loaded Sample.shared_css) "parent.js" [] =
    Ok (tags, already_processed) /\
    NoDup tags.
Proof.
  apply (stylesheet_links_distinct urllib_parse.urljoin Sample.production
           Sample.shared_css "parent.js").
  - apply (ranked_acyclic Sample.shared_css_rank). reflexivity.
  - apply imports_closed_resolvable; reflexivity.
  - intros l c1 c2 Hl.
    assert (El : l = ["a.css"; "a.css"; "b.css"]).
    { apply (css_closure_fun Sample.shared_css "parent.js" l Hl).
      apply (closure_entry Sample.shared_css "parent.js" _
               ["a.css"; "a.css"; "b.css"] eq_refl).
      apply (closure_cons Sample.shared_css "A.js" ["B.js"]
               ["a.css"] ["a.css"; "b.css"]).
      - apply (closure_entry Sample.shared_css "A.js" _ [] eq_refl).
        constructor.
      - apply (closure_cons Sample.shared_css "B.js" []
                 ["a.css"; "b.css"] []).
        + apply (closure_entry Sample.shared_css "B.js" _ [] eq_refl).
          constructor.
        + constructor. }
    subst l. simpl.
    intros [<-|[<-|[<-|[]]]] [<-|[<-|[<-|[]]]] H;
      try reflexivity; vm_compute in H; discriminate H.
  - simpl. lia.
Defined.
